(** * node-dsu: the DSU (cemuhook) server of [src/index.ts]

    A shallow embedding of the [DSUServer] class: the byte codec, the CRC-32
    envelope, the message-type registry, the controller-state serializer and
    the default datagram handler, followed by the properties established
    about them.

    Conventions.
    - A Node [Buffer] is a [list byte]. Writing an element outside the buffer
      does nothing and reading one yields [undefined], exactly as stdpp's
      list insert and lookup behave.
    - A JavaScript integer is a [Z]; a number that may be [NaN] (arithmetic on
      an [undefined] buffer element) is an [option Z], with [None] for [NaN].
    - [throw] is the left injection of a sum; a method that mutates its
      argument or [this] returns the mutated object next to its result. *)

From Stdlib Require Import ZArith Lia String Ascii HexString SpecFloat.
From Stdlib Require Import QArith Qround.
From Stdlib.Strings Require Import Byte.
From stdpp Require Import base list.

Abbreviation Buffer := (list byte).

(** ** Errors and the error monad *)

Inductive Error : Type :=
| InvalidControllerIndex          (* Error("Invalid controller index") *)
| InvalidControllerStateArrayLength (* Error("Invalid controller state array length") *)
| PacketLengthMismatch            (* Error("Packet length mismatch") *)
| CRC32Mismatch (expected actual : string) (* Error("CRC32 mismatch Expected: ... Actual: ...") *)
| RangeError                      (* thrown by Buffer.writeUInt32LE *)
| TypeError.                      (* property read on undefined *)

Definition throws (A : Type) : Type := (Error + A)%type.

Definition bind {A B : Type} (m : throws A) (k : A -> throws B) : throws B :=
  match m with
  | inl e => inl e
  | inr a => k a
  end.

Notation "x <- m ;; k" := (bind m (fun x => k))
  (at level 100, m at next level, right associativity).

(** ** Node.js primitives on buffers *)

Module Node.

Definition byte2Z (b : byte) : Z := Z.of_N (Byte.to_N b).

(** Conversion applied when an integer is stored in a buffer element. *)
Definition ToUint8 (z : Z) : byte :=
  match Byte.of_N (Z.to_N (z mod 256)) with
  | Some b => b
  | None => x00
  end.

(** Storing the result of an element read; [undefined] is stored as 0. *)
Definition stored (v : option byte) : byte := default x00 v.

(** [Buffer.alloc(size)] (and [Buffer.allocUnsafe] where every byte is
    overwritten before it is read). *)
Definition alloc (size : nat) : Buffer := replicate size x00.

(** [src.copy(target, targetStart)]: bytes that do not fit are dropped. *)
Definition copy (src target : Buffer) (targetStart : nat) : Buffer :=
  list_inserts targetStart src target.

(** [buf.slice(start, end)] read as a value. *)
Definition slice (buf : Buffer) (start end_ : nat) : Buffer :=
  take (end_ - start) (drop start buf).

(** [buf.write(str, offset)] for an ASCII string. *)
Definition write (str : string) (buf : Buffer) (offset : nat) : Buffer :=
  copy (list_byte_of_string str) buf offset.

(** [Buffer.from(buffer, _)]: a copy of the same length; the second
    argument is only read when the first one is an ArrayBuffer or a
    string. *)
Definition from_buffer (b : Buffer) (ignored : nat) : Buffer := b.

Definition hex_digit (n : Z) : ascii :=
  match n with
  | 0 => "0" | 1 => "1" | 2 => "2" | 3 => "3" | 4 => "4" | 5 => "5"
  | 6 => "6" | 7 => "7" | 8 => "8" | 9 => "9" | 10 => "a" | 11 => "b"
  | 12 => "c" | 13 => "d" | 14 => "e" | _ => "f"
  end%Z%char.

(** [buf.toString("hex")] *)
Fixpoint toString_hex (buf : Buffer) : string :=
  match buf with
  | [] => EmptyString
  | b :: rest =>
      String (hex_digit (byte2Z b / 16))
        (String (hex_digit (byte2Z b mod 16)) (toString_hex rest))
  end.

(** [Buffer.from(str, "hex")]: decoding stops at the first pair that is
    not two hexadecimal digits. *)
Fixpoint from_hex (str : string) : Buffer :=
  match str with
  | String hi (String lo rest) =>
      match ascii_to_digit hi, ascii_to_digit lo with
      | Some h, Some l => ToUint8 (Z.of_N (16 * h + l)) :: from_hex rest
      | _, _ => []
      end
  | _ => []
  end.

(** [buf.slice(..).toString()] for ASCII contents. *)
Definition toString (buf : Buffer) : string := string_of_list_byte buf.

(** [n.toString(16)]; [None] is [NaN]. *)
Definition Number_toString16 (n : option Z) : string :=
  match n with
  | None => "NaN"
  | Some Z0 => "0"
  | Some (Zpos p) => HexString.Raw.of_pos p ""
  | Some (Zneg p) => String "-" (HexString.Raw.of_pos p "")
  end.

(** [a + b] and [a * b] on numbers that may be [NaN]. *)
Definition add (a b : option Z) : option Z :=
  match a, b with
  | Some x, Some y => Some (x + y)%Z
  | _, _ => None
  end.

Definition mul (a b : option Z) : option Z :=
  match a, b with
  | Some x, Some y => Some (x * y)%Z
  | _, _ => None
  end.

(** [buf[i]] read as a number. *)
Definition elem (buf : Buffer) (i : nat) : option Z := byte2Z <$> buf !! i.

(** The four little-endian bytes of [v]. *)
Definition uint32le (v : Z) : Buffer :=
  [ToUint8 v; ToUint8 (v / 2 ^ 8); ToUint8 (v / 2 ^ 16); ToUint8 (v / 2 ^ 24)]%Z.

(** [buf.writeUInt32LE(value, offset)]: a value outside [0, 2^32 - 1]
    raises [ERR_OUT_OF_RANGE]. *)
Definition writeUInt32LE (buf : Buffer) (value : Z) (offset : nat)
  : throws Buffer :=
  if ((0 <=? value) && (value <=? 2 ^ 32 - 1))%Z
  then inr (copy (uint32le value) buf offset)
  else inl RangeError.

(** Rounding of a double to the nearest single (ties to even). *)
Definition fround (x : spec_float) : spec_float :=
  match x with
  | S754_finite s m e => binary_round 24 128 s m e
  | _ => x
  end.

(** The IEEE-754 binary32 bit pattern of a single. *)
Definition float32_bits (x : spec_float) : Z :=
  let sign (s : bool) : Z := (if s then 2 ^ 31 else 0)%Z in
  match x with
  | S754_zero s => sign s
  | S754_infinity s => sign s + 0x7F800000
  | S754_nan => 0x7FC00000
  | S754_finite s m e =>
      sign s + (if Z.pos m <? 2 ^ 23 then Z.pos m
                else (e + 150) * 2 ^ 23 + (Z.pos m - 2 ^ 23))
  end%Z.

(** [buf.writeFloatLE(n)] at offset 0. *)
Definition writeFloatLE (buf : Buffer) (n : spec_float) : Buffer :=
  copy (uint32le (float32_bits (fround n))) buf 0.

End Node.

(** ** The [crc-32] package: [crc.buf(data, seed)]

  The package is an npm dependency of the server. It computes the
  reflected CRC-32 of polynomial 0xEDB88320 and returns it as a signed
  32-bit integer. *)

Module crc.

Definition polynomial : Z := 0xEDB88320.

Definition shift1 (c : Z) : Z :=
  if Z.testbit c 0 then Z.lxor (Z.shiftr c 1) polynomial else Z.shiftr c 1.

Definition update (c : Z) (b : byte) : Z :=
  Nat.iter 8 shift1 (Z.lxor c (Node.byte2Z b)).

Definition ToInt32 (z : Z) : Z :=
  let u := (z mod 2 ^ 32)%Z in
  if (u <? 2 ^ 31)%Z then u else (u - 2 ^ 32)%Z.

Definition buf (data : Buffer) (seed : Z) : Z :=
  let C := Z.lxor (seed mod 2 ^ 32) 0xFFFFFFFF in
  ToInt32 (Z.lxor (fold_left update data C) 0xFFFFFFFF).

End crc.

(** ** Types of [index.ts] *)

Inductive MessageTypes : Type :=
| ProtocolVersionInformation
| ConnectedControllers
| ControllerData
| ControllerMotor
| Rumble
| Unknown.

Record DSUHeader : Type := {
  dsuType : string;
  version : option Z;
  packetLength : option Z;
  CRC32 : string;
  senderID : option Z
}.

Record DPAD_t : Type := {
  DPAD_LEFT : bool; DPAD_DOWN : bool; DPAD_RIGHT : bool; DPAD_UP : bool
}.

Record KEYS_t : Type := {
  KEYS_OPTIONS : bool; KEYS_R3 : bool; KEYS_L3 : bool; KEYS_SHARE : bool;
  KEYS_HOME : bool
}.

Record STICK_t : Type := { STICK_X : Z; STICK_Y : Z }.

Record ANALOG_DPAD_t : Type := {
  ANALOG_DPAD_LEFT : Z; ANALOG_DPAD_DOWN : Z; ANALOG_DPAD_RIGHT : Z;
  ANALOG_DPAD_UP : Z
}.

Record ANALOG_KEYS_t : Type := {
  ANALOG_KEYS_Y : Z; ANALOG_KEYS_B : Z; ANALOG_KEYS_A : Z; ANALOG_KEYS_X : Z;
  ANALOG_KEYS_R1 : Z; ANALOG_KEYS_L1 : Z; ANALOG_KEYS_R2 : Z; ANALOG_KEYS_L2 : Z
}.

Record ANALOG_t : Type := {
  ANALOG_DPAD : ANALOG_DPAD_t;
  ANALOG_KEYS : ANALOG_KEYS_t
}.

Record ACCEL_t : Type := {
  ACCEL_X : spec_float; ACCEL_Y : spec_float; ACCEL_Z : spec_float
}.

Record GYRO_t : Type := {
  GYRO_PITCH : spec_float; GYRO_YAW : spec_float; GYRO_ROLL : spec_float
}.

Record MOTION_t : Type := {
  TIMESTAMP : Z;
  ACCEL : ACCEL_t;
  GYRO : GYRO_t
}.

Record ControllerState : Type := {
  connected : bool;
  DPAD : DPAD_t;
  KEYS : KEYS_t;
  LSTICK : STICK_t;
  RSTICK : STICK_t;
  ANALOG : ANALOG_t;
  MOTION : MOTION_t
}.

(** The two data fields of the class that the codec and the handler use. *)
Record DSUServer : Type := {
  DATA_CONTROLLERID : Buffer;
  DATA_controllerStates : list ControllerState
}.

Record ParsedMessage : Type := {
  header : DSUHeader;
  messageType : MessageTypes;
  message : Buffer
}.

(** ** Controller state store *)

Definition DSU_dummyState : ControllerState := {|
  connected := false;
  DPAD := {| DPAD_LEFT := false; DPAD_DOWN := false; DPAD_RIGHT := false;
             DPAD_UP := false |};
  KEYS := {| KEYS_OPTIONS := false; KEYS_R3 := false; KEYS_L3 := false;
             KEYS_SHARE := false; KEYS_HOME := false |};
  LSTICK := {| STICK_X := 0; STICK_Y := 0 |};
  RSTICK := {| STICK_X := 0; STICK_Y := 0 |};
  ANALOG := {|
    ANALOG_DPAD := {| ANALOG_DPAD_LEFT := 0; ANALOG_DPAD_DOWN := 0;
                      ANALOG_DPAD_RIGHT := 0; ANALOG_DPAD_UP := 0 |};
    ANALOG_KEYS := {| ANALOG_KEYS_Y := 0; ANALOG_KEYS_B := 0;
                      ANALOG_KEYS_A := 0; ANALOG_KEYS_X := 0;
                      ANALOG_KEYS_R1 := 0; ANALOG_KEYS_L1 := 0;
                      ANALOG_KEYS_R2 := 0; ANALOG_KEYS_L2 := 0 |} |};
  MOTION := {|
    TIMESTAMP := 0;
    ACCEL := {| ACCEL_X := S754_zero false; ACCEL_Y := S754_zero false;
                ACCEL_Z := S754_zero false |};
    GYRO := {| GYRO_PITCH := S754_zero false; GYRO_YAW := S754_zero false;
               GYRO_ROLL := S754_zero false |} |}
|}.

(** The initializer of [DATA_controllerStates]. *)
Definition initial_controllerStates : list ControllerState :=
  [DSU_dummyState; DSU_dummyState; DSU_dummyState; DSU_dummyState].

(** The store always holds four slots (see [store_ok_initial],
    [DSU_setControllerState_store_ok], [DSU_setControllersState_store_ok]);
    with the guard on [index] the element assignment below therefore always
    lands inside the array, where the list insert is the JavaScript one. *)
Definition store_ok (this : DSUServer) : Prop :=
  length (DATA_controllerStates this) = 4.

Definition DSU_setControllerState (this : DSUServer) (index : Z)
    (state : ControllerState) : DSUServer * throws unit :=
  if ((index <? 0) || (index >? 3))%Z
  then (this, inl InvalidControllerIndex)
  else ({| DATA_CONTROLLERID := DATA_CONTROLLERID this;
           DATA_controllerStates :=
             <[Z.to_nat index := state]> (DATA_controllerStates this) |},
        inr tt).

Definition DSU_setControllersState (this : DSUServer)
    (state : list ControllerState) : DSUServer * throws unit :=
  if negb (length state =? 4)
  then (this, inl InvalidControllerStateArrayLength)
  else ({| DATA_CONTROLLERID := DATA_CONTROLLERID this;
           DATA_controllerStates := state |},
        inr tt).

(** [this.DATA_controllerStates[index]]; [None] is [undefined]. *)
Definition DSU_getControllerState (this : DSUServer) (index : Z)
  : option ControllerState :=
  if (index <? 0)%Z then None
  else DATA_controllerStates this !! Z.to_nat index.

(** ** Byte codec *)

(** The [for] loop of [DSU_number2buffer], [todo] iterations from index [i]. *)
Fixpoint number2buffer_loop (todo i : nat) (n : Z) (littleEndian : Buffer)
  : Buffer :=
  match todo with
  | O => littleEndian
  | S todo' =>
      number2buffer_loop todo' (S i) (n / 256)%Z
        (<[i := Node.ToUint8 (Z.rem n 256)]> littleEndian)
  end.

Definition DSU_number2buffer (n : Z) (size : nat) : Buffer :=
  number2buffer_loop size 0 n (Node.alloc size).

(** The [for] loop of [DSU_littleEndian2number] over the remaining bytes. *)
Fixpoint littleEndian2number_loop (buffer : Buffer) (n multiplier : Z) : Z :=
  match buffer with
  | [] => n
  | b :: rest =>
      littleEndian2number_loop rest (n + Node.byte2Z b * multiplier)%Z
        (multiplier * 256)%Z
  end.

Definition DSU_littleEndian2number (buffer : Buffer) : Z :=
  littleEndian2number_loop buffer 0 1.

(** ** Checksum *)

(** Returns the buffer as the call leaves it, and the hex string. *)
Definition DSU_calcCRC32 (msg : Buffer) : Buffer * throws string :=
  let msg := <[8 := x00]> msg in
  let msg := <[9 := x00]> msg in
  let msg := <[10 := x00]> msg in
  let msg := <[11 := x00]> msg in
  let c := crc.buf msg 0 in
  let bigInt := if (c <? 0)%Z then (c + 2 ^ 32)%Z else c in
  (msg,
   littleEndian <- Node.writeUInt32LE (Node.alloc 4) bigInt 0 ;;
   inr (Node.toString_hex littleEndian)).

(** ** Message type registry *)

Definition DSU_messageType2buffer (type : MessageTypes) : Buffer :=
  match type with
  | ProtocolVersionInformation => [x00; x00; x10; x00]
  | ConnectedControllers => [x01; x00; x10; x00]
  | ControllerData => [x02; x00; x10; x00]
  | ControllerMotor => DSU_number2buffer 110001 4
  | Rumble => DSU_number2buffer 110002 4
  | Unknown => DSU_number2buffer 0 4
  end.

(** The object literal indexed by [messageTypeHex_] in [DSU_parseMessage]. *)
Definition messageType_table : list (string * MessageTypes) :=
  [("100000", ProtocolVersionInformation);
   ("100001", ConnectedControllers);
   ("100002", ControllerData);
   ("110001", ControllerMotor);
   ("110002", Rumble)]%string.

Fixpoint table_lookup (table : list (string * MessageTypes)) (key : string)
  : option MessageTypes :=
  match table with
  | [] => None
  | (k, v) :: rest => if String.eqb k key then Some v else table_lookup rest key
  end.

(** The local constants [messageTypeHex_] and [messageType] of
    [DSU_parseMessage], as functions of [messageTypeBuffer]. *)
Definition messageTypeHex (messageTypeBuffer : Buffer) : string :=
  Node.Number_toString16
    (Node.add
       (Node.add
          (Node.add (Node.elem messageTypeBuffer 0)
             (Node.mul (Node.elem messageTypeBuffer 1) (Some 256%Z)))
          (Node.mul (Node.mul (Node.elem messageTypeBuffer 2) (Some 256%Z))
             (Some 256%Z)))
       (Node.mul
          (Node.mul (Node.mul (Node.elem messageTypeBuffer 3) (Some 256%Z))
             (Some 256%Z))
          (Some 256%Z))).

Definition messageType_of (messageTypeBuffer : Buffer) : MessageTypes :=
  default Unknown
    (table_lookup messageType_table (messageTypeHex messageTypeBuffer)).

(** ** Frame codec *)

Definition DSU_generateMessage (this : DSUServer) (type : MessageTypes)
    (data : Buffer) : throws Buffer :=
  let version_ := DSU_number2buffer 1001 2 in
  let header_ := Node.alloc 16 in
  let header_ := Node.write "DSUS" header_ 0 in
  let header_ := Node.copy version_ header_ 4 in
  let header_ := Node.copy (DATA_CONTROLLERID this) header_ 12 in
  let messageTypeBuffer := DSU_messageType2buffer type in
  let result := header_ ++ messageTypeBuffer ++ data in
  let packetLength_ :=
    DSU_number2buffer (Z.of_nat (length result) - Z.of_nat (length header_)) 2 in
  let result := Node.copy packetLength_ result 6 in
  let '(result, crc_) := DSU_calcCRC32 result in
  CRC32_ <- crc_ ;;
  inr (Node.copy (Node.from_hex CRC32_) result 8).

(** Returns the datagram as the call leaves it, and the parse result. *)
Definition DSU_parseMessage (msg : Buffer) : Buffer * throws ParsedMessage :=
  let headerBuffer := Node.slice msg 0 16 in
  let messageTypeBuffer := Node.slice msg 16 20 in
  let messageBuffer := Node.slice msg 20 (length msg) in
  let messageType_ := messageType_of messageTypeBuffer in
  let headerData := {|
    dsuType := Node.toString (Node.slice headerBuffer 0 4);
    version :=
      Node.add (Node.elem headerBuffer 4)
        (Node.mul (Node.elem headerBuffer 5) (Some 256%Z));
    packetLength :=
      Node.add (Node.elem headerBuffer 6)
        (Node.mul (Node.elem headerBuffer 7) (Some 256%Z));
    CRC32 := Node.toString_hex (Node.slice headerBuffer 8 12);
    senderID :=
      Node.add
        (Node.add
           (Node.add (Node.elem headerBuffer 12)
              (Node.mul (Node.elem headerBuffer 13) (Some 256%Z)))
           (Node.mul (Node.mul (Node.elem headerBuffer 14) (Some 256%Z))
              (Some 256%Z)))
        (Node.mul
           (Node.mul (Node.mul (Node.elem headerBuffer 15) (Some 256%Z))
              (Some 256%Z))
           (Some 256%Z))
  |} in
  let actualSize := (Z.of_nat (length msg) - Z.of_nat (length headerBuffer))%Z in
  let '(msg, crc_) := DSU_calcCRC32 msg in
  (msg,
   calculatedCRC32 <- crc_ ;;
   if negb (bool_decide (Some actualSize = packetLength headerData))
   then inl PacketLengthMismatch
   else if negb (String.eqb (CRC32 headerData) calculatedCRC32)
   then inl (CRC32Mismatch (CRC32 headerData) calculatedCRC32)
   else inr {| header := headerData;
               messageType := messageType_;
               message := messageBuffer |}).

(** ** Controller state serializer *)

Definition DSU_createControllerData (this : DSUServer) (slot : Z)
    (enabled : bool) : Buffer :=
  let response := Node.alloc 12 in
  let response := <[0 := Node.ToUint8 slot]> response in
  if negb enabled then response
  else
    let response := <[1 := x02]> response in
    let response := <[2 := x02]> response in
    let response := <[3 := x01]> response in
    let response := <[10 := x05]> response in
    let MACADRESS := Node.from_buffer (DATA_CONTROLLERID this) 6 in
    let MACADRESS := <[5 := Node.ToUint8 slot]> MACADRESS in
    let response := Node.copy MACADRESS response 4 in
    <[11 := Node.ToUint8 0]> response.

Definition BOOL2BIT (b : bool) : Z := if b then 1%Z else 0%Z.

(** The accumulation loop of [BITMASK2BUFFER], from index [i]. *)
Fixpoint BITMASK_loop (bitmask : list Z) (i : nat) (result : Z) : Z :=
  match bitmask with
  | [] => result
  | bit :: rest => BITMASK_loop rest (S i) (result + bit * 2 ^ Z.of_nat i)%Z
  end.

Definition BITMASK2BUFFER (bitmask : list Z) : Buffer :=
  DSU_number2buffer (BITMASK_loop bitmask 0 0) 1.

Definition float2buffer (n : spec_float) : Buffer :=
  Node.writeFloatLE (Node.alloc 4) n.

(** [state] is the optional second argument: when it is absent the default
    [this.DSU_getControllerState(slot)] is taken, and reading [connected] on
    an [undefined] state raises a [TypeError]. *)
Definition DSU_state2buffer (this : DSUServer) (slot : Z)
    (state : option ControllerState) : throws Buffer :=
  let state :=
    match state with
    | Some s => Some s
    | None => DSU_getControllerState this slot
    end in
  match state with
  | None => inl TypeError
  | Some state =>
      let CONTROLLER_INFO :=
        DSU_createControllerData this slot (connected state) in
      let D := Node.alloc 80 in
      let D := Node.copy CONTROLLER_INFO D 0 in
      let D := <[11 := if connected state then x01 else x00]> D in
      let D := <[12 := Node.stored (DATA_CONTROLLERID this !! 0)]> D in
      let D := <[13 := Node.stored (DATA_CONTROLLERID this !! 1)]> D in
      let D := <[14 := Node.stored (DATA_CONTROLLERID this !! 2)]> D in
      let D := <[15 := Node.ToUint8 slot]> D in
      let D :=
        <[16 := Node.stored
                  (BITMASK2BUFFER
                     [BOOL2BIT (DPAD_LEFT (DPAD state));
                      BOOL2BIT (DPAD_DOWN (DPAD state));
                      BOOL2BIT (DPAD_RIGHT (DPAD state));
                      BOOL2BIT (DPAD_UP (DPAD state));
                      BOOL2BIT (KEYS_OPTIONS (KEYS state));
                      BOOL2BIT (KEYS_R3 (KEYS state));
                      BOOL2BIT (KEYS_L3 (KEYS state));
                      BOOL2BIT (KEYS_SHARE (KEYS state))] !! 0)]> D in
      let D :=
        <[18 := Node.stored
                  (DSU_number2buffer (BOOL2BIT (KEYS_HOME (KEYS state))) 1
                     !! 0)]> D in
      let D := Node.copy (DSU_number2buffer (STICK_X (LSTICK state)) 1) D 20 in
      let D := Node.copy (DSU_number2buffer (STICK_Y (LSTICK state)) 1) D 21 in
      let D := Node.copy (DSU_number2buffer (STICK_X (RSTICK state)) 1) D 22 in
      let D := Node.copy (DSU_number2buffer (STICK_Y (RSTICK state)) 1) D 23 in
      let AD := ANALOG_DPAD (ANALOG state) in
      let D := Node.copy (DSU_number2buffer (ANALOG_DPAD_LEFT AD) 1) D 24 in
      let D := Node.copy (DSU_number2buffer (ANALOG_DPAD_DOWN AD) 1) D 25 in
      let D := Node.copy (DSU_number2buffer (ANALOG_DPAD_RIGHT AD) 1) D 26 in
      let D := Node.copy (DSU_number2buffer (ANALOG_DPAD_UP AD) 1) D 27 in
      let AK := ANALOG_KEYS (ANALOG state) in
      let D := Node.copy (DSU_number2buffer (ANALOG_KEYS_Y AK) 1) D 28 in
      let D := Node.copy (DSU_number2buffer (ANALOG_KEYS_B AK) 1) D 29 in
      let D := Node.copy (DSU_number2buffer (ANALOG_KEYS_A AK) 1) D 30 in
      let D := Node.copy (DSU_number2buffer (ANALOG_KEYS_X AK) 1) D 31 in
      let D := Node.copy (DSU_number2buffer (ANALOG_KEYS_R1 AK) 1) D 32 in
      let D := Node.copy (DSU_number2buffer (ANALOG_KEYS_L1 AK) 1) D 33 in
      let D := Node.copy (DSU_number2buffer (ANALOG_KEYS_R2 AK) 1) D 34 in
      let D := Node.copy (DSU_number2buffer (ANALOG_KEYS_L2 AK) 1) D 35 in
      let D :=
        Node.copy (DSU_number2buffer (TIMESTAMP (MOTION state)) 8) D 48 in
      let D := Node.copy (float2buffer (ACCEL_X (ACCEL (MOTION state)))) D 56 in
      let D := Node.copy (float2buffer (ACCEL_Y (ACCEL (MOTION state)))) D 60 in
      let D := Node.copy (float2buffer (ACCEL_Z (ACCEL (MOTION state)))) D 64 in
      let D := Node.copy (float2buffer (GYRO_PITCH (GYRO (MOTION state)))) D 68 in
      let D := Node.copy (float2buffer (GYRO_YAW (GYRO (MOTION state)))) D 72 in
      let D := Node.copy (float2buffer (GYRO_ROLL (GYRO (MOTION state)))) D 76 in
      inr D
  end.

(** ** Request dispatcher *)

(** What one call of the handler leaves behind: the server object, the
    datagram buffer it was given, the frames handed to [sendMessage] in
    order, and the exception that reached the [catch] clause, if any. *)
Record Handled : Type := {
  server_after : DSUServer;
  msg_after : Buffer;
  sent : list Buffer;
  caught : option Error
}.

(** The [for] loop of the ["ConnectedControllers"] case: [todo] iterations
    remain, [slot] is the loop counter, [out] the frames sent so far. An
    absent byte [message[4 + slot]] is [undefined], which every store in
    [DSU_createControllerData] turns into 0. *)
Fixpoint ConnectedControllers_loop (this : DSUServer) (message_ : Buffer)
    (todo slot : nat) (out : list Buffer) : list Buffer * option Error :=
  match todo with
  | O => (out, None)
  | S todo' =>
      let requested := Node.byte2Z (Node.stored (message_ !! (4 + slot))) in
      match DSU_getControllerState this (Z.of_nat slot) with
      | None => (out, Some TypeError)
      | Some state =>
          match
            DSU_generateMessage this ConnectedControllers
              (DSU_createControllerData this requested (connected state))
          with
          | inl e => (out, Some e)
          | inr frame =>
              ConnectedControllers_loop this message_ todo' (S slot)
                (out ++ [frame])
          end
      end
  end.

Inductive SELECTION : Type := SLOT | MAC | UNKNOWN.

Definition UDP_DefaultHandler (this : DSUServer) (msg : Buffer) : Handled :=
  let '(msg, parsed) := DSU_parseMessage msg in
  let finish (r : list Buffer * option Error) :=
    {| server_after := this; msg_after := msg;
       sent := fst r; caught := snd r |} in
  match parsed with
  | inl e => finish ([], Some e)
  | inr message_ =>
      match messageType message_ with
      | ConnectedControllers =>
          let slotCount2report :=
            DSU_littleEndian2number (Node.slice (message message_) 0 4) in
          finish
            (ConnectedControllers_loop this (message message_)
               (Z.to_nat slotCount2report) 0 [])
      | ControllerData =>
          let SELECTION_TYPE :=
            if bool_decide (Node.elem (message message_) 0 = Some 1%Z)
            then SLOT
            else if bool_decide (Node.elem (message message_) 0 = Some 2%Z)
            then MAC
            else UNKNOWN in
          match SELECTION_TYPE with
          | UNKNOWN => finish ([], None)
          | _ =>
              let CONTROLLER_INDEX :=
                match SELECTION_TYPE with
                | SLOT => Node.elem (message message_) 1
                | _ => Node.elem (message message_) 7
                end in
              match CONTROLLER_INDEX with
              | None => finish ([], None)
              | Some index =>
                  match
                    body <- DSU_state2buffer this index None ;;
                    DSU_generateMessage this ControllerData body
                  with
                  | inl e => finish ([], Some e)
                  | inr frame => finish ([frame], None)
                  end
              end
          end
      | _ => finish ([], None)
      end
  end.

(** ** Specification-side definitions

    Written from the prose of the specification rather than from the code;
    the properties below compare them with the functions above. *)

(** "The frame with bytes at the header's checksum-field offset (offset 8,
    length 4) forced to zero". *)
Definition spec_checksum_zeroed (frame : Buffer) : Buffer :=
  take 8 frame ++ replicate (Nat.min 4 (length frame - 8)) x00 ++ drop 12 frame.

(** "The checksum as an unsigned 32-bit value, adding 2^32 when the
    underlying signed result is negative". *)
Definition spec_checksum (frame : Buffer) : Z :=
  let c := crc.buf (spec_checksum_zeroed frame) 0 in
  if (c <? 0)%Z then (c + 2 ^ 32)%Z else c.

(** "The header's declared length field": bytes 6 and 7, little-endian;
    [None] when one of them is missing from the datagram. *)
Definition declared_length (raw : Buffer) : option Z :=
  Node.add (Node.elem raw 6) (Node.mul (Node.elem raw 7) (Some 256%Z)).

(** "The header's declared checksum": the bytes at offsets 8 to 11. *)
Definition declared_checksum (raw : Buffer) : Buffer := Node.slice raw 8 12.

(** The number of bytes that follow the header slice [raw.slice(0, 16)]. *)
Definition trailing_bytes (raw : Buffer) : Z :=
  (Z.of_nat (length raw) - Z.of_nat (Nat.min 16 (length raw)))%Z.

(** The wire frame of the specification: tag, version, body length,
    checksum, sender identifier, message code, body. *)
Definition frame_bytes (bodyLength checksum : Z) (senderId code body : Buffer)
  : Buffer :=
  [x44; x53; x55; x53; xe9; x03]
  ++ DSU_number2buffer bodyLength 2
  ++ Node.uint32le checksum
  ++ senderId ++ code ++ body.

(** The sender identifier as it lands in the four header bytes. *)
Definition header_senderID (this : DSUServer) : Buffer :=
  Node.copy (DATA_CONTROLLERID this) (Node.alloc 4) 0.

(** "A synthesized 6-byte identifier: the sender identifier with its last
    byte replaced by the slot index". *)
Definition spec_identifier (this : DSUServer) (slot : Z) : Buffer :=
  <[5 := Node.ToUint8 slot]>
    (Node.copy (DATA_CONTROLLERID this) (Node.alloc 6) 0).

(** "Body byte 0 selects the addressing mode: 1 = by slot index (byte 1 is
    the index), 2 = by identifier (byte 7 carries the slot index)". *)
Definition resolves_to (body : Buffer) (index : Z) : Prop :=
  (Node.elem body 0 = Some 1%Z /\ Node.elem body 1 = Some index)
  \/ (Node.elem body 0 = Some 2%Z /\ Node.elem body 7 = Some index).

(** The frame that iteration [i] of the connected-controllers loop sends:
    the summary of the slot index requested at body byte [4 + i], with the
    connection flag that the call passes next to it. *)
Definition info_frame (this : DSUServer) (body : Buffer) (i : nat)
    (frame : Buffer) : Prop :=
  exists state : ControllerState,
    DATA_controllerStates this !! i = Some state
    /\ DSU_generateMessage this ConnectedControllers
         (DSU_createControllerData this
            (Node.byte2Z (Node.stored (body !! (4 + i))))
            (connected state))
       = inr frame.

(** ** Concrete servers and datagrams used in the examples *)

(** A server as the constructor leaves it, for one outcome of
    [DSU_generateID]. *)
Definition fresh_server : DSUServer := {|
  DATA_CONTROLLERID := [x11; x22; x33; x44];
  DATA_controllerStates := initial_controllerStates
|}.

Definition connected_dummy : ControllerState := {|
  connected := true;
  DPAD := DPAD DSU_dummyState;
  KEYS := KEYS DSU_dummyState;
  LSTICK := LSTICK DSU_dummyState;
  RSTICK := RSTICK DSU_dummyState;
  ANALOG := ANALOG DSU_dummyState;
  MOTION := MOTION DSU_dummyState
|}.

(** The server after [DSU_setControllerState(0, s)] with a connected [s],
    which is what the timer at the end of [index.ts] does. *)
Definition slot0_server : DSUServer := {|
  DATA_CONTROLLERID := [x11; x22; x33; x44];
  DATA_controllerStates :=
    [connected_dummy; DSU_dummyState; DSU_dummyState; DSU_dummyState]
|}.

(** A client datagram: tag "DSUC", version 1001, sender identifier
    a1 b2 c3 d4, the given length and checksum fields. *)
Definition client_datagram (len0 len1 c0 c1 c2 c3 : byte) (code body : Buffer)
  : Buffer :=
  [x44; x53; x55; x43; xe9; x03; len0; len1; c0; c1; c2; c3;
   xa1; xb2; xc3; xd4] ++ code ++ body.

(** Connected-controllers query for one slot, slot index 1. *)
Definition query_slot1_info : Buffer :=
  client_datagram x09 x00 x11 x82 x2b x5c
    [x01; x00; x10; x00] [x01; x00; x00; x00; x01].

(** Connected-controllers query for slots 0 and 1. *)
Definition query_slots01_info : Buffer :=
  client_datagram x0a x00 x4e xda xcf xff
    [x01; x00; x10; x00] [x02; x00; x00; x00; x00; x01].

(** Controller-data query by slot index, slot 2. *)
Definition query_slot2_data : Buffer :=
  client_datagram x06 x00 xa7 x21 xf6 x3a [x02; x00; x10; x00] [x01; x02].

(** Controller-data query by slot index, slot 4. *)
Definition query_slot4_data : Buffer :=
  client_datagram x06 x00 x92 x84 x95 xd3 [x02; x00; x10; x00] [x01; x04].

(** Connected-controllers query for five slots: 0, 1, 2, 3 and 0 again. *)
Definition query_five_slots_info : Buffer :=
  client_datagram x0d x00 x59 xf9 x38 xcf
    [x01; x00; x10; x00] [x05; x00; x00; x00; x00; x01; x02; x03; x00].

(** Controller-data query with the unknown selection mode 9. *)
Definition query_mode9_data : Buffer :=
  client_datagram x06 x00 x83 xca x21 x1c [x02; x00; x10; x00] [x09; x00].

(** Twelve bytes: a header cut before the sender identifier, declaring a
    length of zero and carrying the CRC-32 of its other bytes. *)
Definition truncated_datagram : Buffer :=
  [x44; x53; x55; x43; xe9; x03; x00; x00; xdc; xa7; xb9; xbc].

(** ** Decidable equality of bytes and of message kinds *)

#[global] Instance byte_eq_decision : EqDecision byte := Byte.byte_eq_dec.

#[global] Instance MessageTypes_eq_decision : EqDecision MessageTypes.
Proof. solve_decision. Defined.

(** ** Random states and identifiers

    [Math.random()] is read from [random], the sequence of its successive
    results (rationals of the interval from 0 inclusive to 1 exclusive), at
    a position [k] that each call advances by one. *)

(** The double [m * 2 ^ e]. *)
Definition dyadic (m e : Z) : spec_float :=
  match m with
  | Z0 => S754_zero false
  | Zpos p => S754_finite false p e
  | Zneg p => S754_finite true p e
  end.

(** [() => Math.random() > 0.5] *)
Definition genrandomState (random : nat -> Q) (k : nat) : bool :=
  negb (Qle_bool (random k) (1 # 2)).

(** [() => Math.floor(Math.random() * 256)] *)
Definition genrandomNumber (random : nat -> Q) (k : nat) : Z :=
  Qfloor (random k * 256).

(** [now] is the result of the call of [Date.now()] that fills [TIMESTAMP];
    the buffer [tstamp] is written and never read. *)
Definition DSU_randomState (random : nat -> Q) (now : Z) (k : nat)
  : ControllerState := {|
  connected := true;
  DPAD := {| DPAD_LEFT := genrandomState random k;
             DPAD_DOWN := genrandomState random (k + 1);
             DPAD_RIGHT := genrandomState random (k + 2);
             DPAD_UP := genrandomState random (k + 3) |};
  KEYS := {| KEYS_OPTIONS := genrandomState random (k + 4);
             KEYS_R3 := genrandomState random (k + 5);
             KEYS_L3 := genrandomState random (k + 6);
             KEYS_SHARE := genrandomState random (k + 7);
             KEYS_HOME := genrandomState random (k + 8) |};
  LSTICK := {| STICK_X := genrandomNumber random (k + 9);
               STICK_Y := genrandomNumber random (k + 10) |};
  RSTICK := {| STICK_X := genrandomNumber random (k + 11);
               STICK_Y := genrandomNumber random (k + 12) |};
  ANALOG := {|
    ANALOG_DPAD := {| ANALOG_DPAD_LEFT := genrandomNumber random (k + 13);
                      ANALOG_DPAD_DOWN := genrandomNumber random (k + 14);
                      ANALOG_DPAD_RIGHT := genrandomNumber random (k + 15);
                      ANALOG_DPAD_UP := genrandomNumber random (k + 16) |};
    ANALOG_KEYS := {| ANALOG_KEYS_Y := genrandomNumber random (k + 17);
                      ANALOG_KEYS_B := genrandomNumber random (k + 18);
                      ANALOG_KEYS_A := genrandomNumber random (k + 19);
                      ANALOG_KEYS_X := genrandomNumber random (k + 20);
                      ANALOG_KEYS_R1 := genrandomNumber random (k + 21);
                      ANALOG_KEYS_L1 := genrandomNumber random (k + 22);
                      ANALOG_KEYS_R2 := genrandomNumber random (k + 23);
                      ANALOG_KEYS_L2 := genrandomNumber random (k + 24) |} |};
  MOTION := {|
    TIMESTAMP := now;
    ACCEL := {| ACCEL_X := dyadic (genrandomNumber random (k + 25)) (-8);
                ACCEL_Y := dyadic (genrandomNumber random (k + 26)) (-8);
                ACCEL_Z := dyadic (genrandomNumber random (k + 27)) (-8) |};
    GYRO := {| GYRO_PITCH := dyadic (genrandomNumber random (k + 28)) 0;
               GYRO_YAW := dyadic (genrandomNumber random (k + 29)) 0;
               GYRO_ROLL := dyadic (genrandomNumber random (k + 30)) 0 |} |}
|}.

(** The [for] loop of [DSU_generateID], [todo] iterations from index [i]. *)
Fixpoint generateID_loop (random : nat -> Q) (k todo i : nat) (id : Buffer)
  : Buffer :=
  match todo with
  | O => id
  | S todo' =>
      generateID_loop random (S k) todo' (S i)
        (<[i := Node.ToUint8 (genrandomNumber random k)]> id)
  end.

Definition DSU_generateID (random : nat -> Q) (k : nat) : Buffer :=
  generateID_loop random k 4 0 (Node.alloc 4).

(** The data fields as the field initializers and the constructor leave
    them (the socket is outside the model). *)
Definition constructed (random : nat -> Q) (k : nat) : DSUServer := {|
  DATA_CONTROLLERID := DSU_generateID random k;
  DATA_controllerStates := initial_controllerStates
|}.

(** One run of the timer callback at the end of [index.ts]:
    [server.DSU_setControllerState(0, server.DSU_randomState())]. *)
Definition timer_tick (random : nat -> Q) (now : Z) (k : nat)
    (this : DSUServer) : DSUServer * throws unit :=
  DSU_setControllerState this 0 (DSU_randomState random now k).

(** A call of one of the two setters, and a caller that goes on after an
    error. *)
Inductive StoreCall : Type :=
| SetControllerState (index : Z) (state : ControllerState)
| SetControllersState (states : list ControllerState).

Definition store_call (this : DSUServer) (c : StoreCall)
  : DSUServer * throws unit :=
  match c with
  | SetControllerState index state => DSU_setControllerState this index state
  | SetControllersState states => DSU_setControllersState this states
  end.

Definition store_calls (this : DSUServer) (cs : list StoreCall) : DSUServer :=
  fold_left (fun s c => fst (store_call s c)) cs this.

(** A sequence of draws and a clock for the examples. *)
Definition example_random (k : nat) : Q := (Z.of_nat (k mod 7) # 7)%Q.

(** The server object of [index.ts] after [n] runs of the timer callback:
    the constructor draws four numbers, every callback thirty-one;
    [clock i] is what [Date.now()] returns in callback [i]. *)
Fixpoint program (random : nat -> Q) (clock : nat -> Z) (n : nat) : DSUServer :=
  match n with
  | O => constructed random 0
  | S n' =>
      fst (timer_tick random (clock n') (4 + 31 * n')
             (program random clock n'))
  end.

(** * Properties *)

Local Open Scope Z_scope.

(** ** Bytes *)

Lemma byte2Z_range (b : byte) : 0 <= Node.byte2Z b < 256.
Proof.
  unfold Node.byte2Z. pose proof (Byte.to_N_bounded b). lia.
Qed.

Lemma byte2Z_ToUint8 (z : Z) : Node.byte2Z (Node.ToUint8 z) = z mod 256.
Proof.
  unfold Node.byte2Z, Node.ToUint8.
  pose proof (Z.mod_pos_bound z 256 ltac:(lia)) as Hr.
  destruct (Byte.of_N (Z.to_N (z mod 256))) as [b|] eqn:E.
  - apply Byte.to_of_N in E. rewrite E. lia.
  - apply Byte.of_N_None_iff in E. lia.
Qed.

Lemma ToUint8_byte2Z (b : byte) : Node.ToUint8 (Node.byte2Z b) = b.
Proof.
  unfold Node.ToUint8. pose proof (byte2Z_range b) as Hr.
  rewrite Z.mod_small by exact Hr.
  unfold Node.byte2Z. rewrite N2Z.id, Byte.of_to_N. reflexivity.
Qed.

Lemma byte2Z_inj (a b : byte) : Node.byte2Z a = Node.byte2Z b -> a = b.
Proof.
  intros H. rewrite <- (ToUint8_byte2Z a), <- (ToUint8_byte2Z b), H.
  reflexivity.
Qed.

Lemma rem_mod_256 (n : Z) : (Z.rem n 256) mod 256 = n mod 256.
Proof.
  rewrite (Z.quot_rem' n 256) at 2.
  rewrite Z.add_comm, Z.mul_comm, Z.mod_add by lia. reflexivity.
Qed.

(** ** Little-endian integers *)

Lemma length_number2buffer_loop (todo i : nat) (n : Z) (b : Buffer) :
  length (number2buffer_loop todo i n b) = length b.
Proof.
  revert i n b. induction todo as [|todo IH]; intros i n b; simpl.
  - reflexivity.
  - rewrite IH, length_insert. reflexivity.
Qed.

Lemma length_number2buffer (n : Z) (size : nat) :
  length (DSU_number2buffer n size) = size.
Proof.
  unfold DSU_number2buffer, Node.alloc.
  rewrite length_number2buffer_loop, length_replicate. reflexivity.
Qed.

(** The loop only writes at indices from [i] on. *)
Lemma number2buffer_loop_below (todo i j : nat) (n : Z) (b : Buffer) :
  (j < i)%nat -> number2buffer_loop todo i n b !! j = b !! j.
Proof.
  revert i n b. induction todo as [|todo IH]; intros i n b Hj; simpl.
  - reflexivity.
  - rewrite IH by lia. apply list_lookup_insert_ne. lia.
Qed.

(** Decoding what the encoding loop wrote from index [i] on yields the
    [todo] low base-256 digits of [n]. *)
Lemma littleEndian2number_number2buffer_loop
    (todo i : nat) (n : Z) (b : Buffer) (acc m : Z) :
  length b = (i + todo)%nat ->
  littleEndian2number_loop (drop i (number2buffer_loop todo i n b)) acc m
  = acc + m * (n mod 256 ^ Z.of_nat todo).
Proof.
  revert i n b acc m.
  induction todo as [|todo IH]; intros i n b acc m Hlen.
  - simpl number2buffer_loop. rewrite drop_ge by lia. simpl.
    rewrite Z.mod_1_r. lia.
  - simpl number2buffer_loop.
    rewrite (drop_S _ (Node.ToUint8 (Z.rem n 256)) i).
    + simpl littleEndian2number_loop.
      rewrite IH by (rewrite length_insert; lia).
      rewrite byte2Z_ToUint8, rem_mod_256.
      rewrite Nat2Z.inj_succ, Z.pow_succ_r by lia.
      rewrite (Z.rem_mul_r n 256 (256 ^ Z.of_nat todo)) by lia.
      ring.
    + rewrite number2buffer_loop_below by lia.
      apply list_lookup_insert_eq. lia.
Qed.

Lemma littleEndian2number_number2buffer (n : Z) (size : nat) :
  DSU_littleEndian2number (DSU_number2buffer n size)
  = n mod 256 ^ Z.of_nat size.
Proof.
  unfold DSU_littleEndian2number, DSU_number2buffer.
  pose proof (littleEndian2number_number2buffer_loop
                size 0 n (Node.alloc size) 0 1) as H.
  rewrite drop_0 in H. rewrite H.
  - lia.
  - unfold Node.alloc. rewrite length_replicate. reflexivity.
Qed.

(** C8. For every width [w] among 1, 2, 4 and 8 and every non-negative
    integer [n] below [256 ^ w], decoding with [DSU_littleEndian2number] the
    buffer that [DSU_number2buffer n w] produces gives [n] back. *)
Theorem number2buffer_roundtrip (w : nat) (n : Z) :
  In w [1; 2; 4; 8]%nat ->
  0 <= n < 256 ^ Z.of_nat w ->
  DSU_littleEndian2number (DSU_number2buffer n w) = n.
Proof.
  intros _ Hn. rewrite littleEndian2number_number2buffer.
  apply Z.mod_small. exact Hn.
Qed.

Lemma number2buffer_roundtrip_witness :
  DSU_littleEndian2number (DSU_number2buffer 1001 2) = 1001.
Proof.
  apply (number2buffer_roundtrip 2 1001).
  - simpl. tauto.
  - simpl. lia.
Defined.

(** ** Hexadecimal strings *)

Lemma from_hex_step (b : byte) (s : string) :
  Node.from_hex
    (String (Node.hex_digit (Node.byte2Z b / 16))
       (String (Node.hex_digit (Node.byte2Z b mod 16)) s))
  = b :: Node.from_hex s.
Proof. destruct b; reflexivity. Qed.

Lemma from_hex_toString_hex (l : Buffer) :
  Node.from_hex (Node.toString_hex l) = l.
Proof.
  induction l as [|b l IH].
  - reflexivity.
  - cbn [Node.toString_hex]. rewrite from_hex_step, IH. reflexivity.
Qed.

Lemma toString_hex_inj (k l : Buffer) :
  Node.toString_hex k = Node.toString_hex l -> k = l.
Proof.
  intros H. rewrite <- (from_hex_toString_hex k), H.
  apply from_hex_toString_hex.
Qed.

(** ** Checksum engine *)

Lemma ToInt32_range (z : Z) : - 2 ^ 31 <= crc.ToInt32 z < 2 ^ 31.
Proof.
  unfold crc.ToInt32.
  pose proof (Z.mod_pos_bound z (2 ^ 32) ltac:(lia)).
  destruct (Z.ltb_spec (z mod 2 ^ 32) (2 ^ 31)); lia.
Qed.

Lemma crc_buf_range (data : Buffer) (seed : Z) :
  - 2 ^ 31 <= crc.buf data seed < 2 ^ 31.
Proof. unfold crc.buf. apply ToInt32_range. Qed.

Lemma spec_checksum_range (frame : Buffer) : 0 <= spec_checksum frame < 2 ^ 32.
Proof.
  unfold spec_checksum.
  pose proof (crc_buf_range (spec_checksum_zeroed frame) 0).
  destruct (Z.ltb_spec (crc.buf (spec_checksum_zeroed frame) 0) 0); lia.
Qed.

(** The four element writes of [DSU_calcCRC32] produce the zeroed frame of
    the specification, whatever the length of the buffer. *)
Lemma calcCRC32_zeroes (msg : Buffer) :
  <[11%nat := x00]> (<[10%nat := x00]> (<[9%nat := x00]> (<[8%nat := x00]> msg)))
  = spec_checksum_zeroed msg.
Proof.
  unfold spec_checksum_zeroed.
  do 12 (destruct msg as [|? msg]; [reflexivity|]).
  reflexivity.
Qed.

Lemma length_spec_checksum_zeroed (msg : Buffer) :
  length (spec_checksum_zeroed msg) = length msg.
Proof.
  rewrite <- calcCRC32_zeroes. rewrite !length_insert. reflexivity.
Qed.

Lemma lookup_spec_checksum_zeroed (msg : Buffer) (i : nat) :
  spec_checksum_zeroed msg !! i
  = if bool_decide (8 <= i < 12)%nat
    then (fun _ => x00) <$> msg !! i
    else msg !! i.
Proof.
  rewrite <- calcCRC32_zeroes.
  case_bool_decide as Hi.
  - assert (i = 8 \/ i = 9 \/ i = 10 \/ i = 11)%nat as Hc by lia.
    destruct (msg !! i) as [b|] eqn:E.
    + apply lookup_lt_Some in E.
      destruct Hc as [-> | [-> | [-> | ->]]];
        repeat first
          [ rewrite list_lookup_insert_eq by (rewrite ?length_insert; lia)
          | rewrite list_lookup_insert_ne by lia ];
        reflexivity.
    + apply lookup_ge_None in E. simpl.
      apply lookup_ge_None. rewrite !length_insert. exact E.
  - rewrite !list_lookup_insert_ne by lia. reflexivity.
Qed.

Lemma uint32le_number2buffer (v : Z) :
  Node.uint32le v = DSU_number2buffer v 4.
Proof.
  unfold Node.uint32le, DSU_number2buffer. cbn.
  rewrite !Z.div_div by lia. cbn.
  f_equal; [|f_equal; [|f_equal; [|f_equal]]];
    apply byte2Z_inj; rewrite !byte2Z_ToUint8, rem_mod_256; reflexivity.
Qed.

(** [DSU_calcCRC32] always returns: the range check of [writeUInt32LE] never
    fails on the adjusted checksum. *)
Lemma DSU_calcCRC32_eq (msg : Buffer) :
  DSU_calcCRC32 msg
  = (spec_checksum_zeroed msg,
     inr (Node.toString_hex (Node.uint32le (spec_checksum msg)))).
Proof.
  unfold DSU_calcCRC32. rewrite calcCRC32_zeroes.
  fold (spec_checksum msg).
  pose proof (spec_checksum_range msg) as Hr.
  unfold Node.writeUInt32LE.
  replace ((0 <=? spec_checksum msg) && (spec_checksum msg <=? 2 ^ 32 - 1))
    with true.
  - reflexivity.
  - symmetry. apply andb_true_intro. split; apply Z.leb_le; lia.
Qed.

(** ** Frame codec: parsing *)

Lemma slice_of_header (msg : Buffer) (a b : nat) :
  (a <= b <= 16)%nat ->
  Node.slice (Node.slice msg 0 16) a b = Node.slice msg a b.
Proof.
  intros Hb. unfold Node.slice. rewrite drop_0, Nat.sub_0_r.
  rewrite !take_drop_commute, take_take.
  f_equal. f_equal. lia.
Qed.

Lemma elem_of_header (msg : Buffer) (i : nat) :
  (i < 16)%nat -> Node.elem (Node.slice msg 0 16) i = Node.elem msg i.
Proof.
  intros Hi. unfold Node.elem, Node.slice.
  rewrite drop_0, lookup_take_lt by lia. reflexivity.
Qed.

Lemma slice_body (msg : Buffer) : Node.slice msg 20 (length msg) = drop 20 msg.
Proof.
  unfold Node.slice. apply take_ge. rewrite length_drop. lia.
Qed.

(** [DSU_parseMessage] in closed form: the buffer it leaves behind and the
    three possible outcomes. *)
Lemma DSU_parseMessage_eq (msg : Buffer) :
  exists hd : DSUHeader,
    CRC32 hd = Node.toString_hex (declared_checksum msg) /\
    DSU_parseMessage msg
    = (spec_checksum_zeroed msg,
       if negb (bool_decide (Some (trailing_bytes msg) = declared_length msg))
       then inl PacketLengthMismatch
       else if negb (String.eqb (Node.toString_hex (declared_checksum msg))
                       (Node.toString_hex (Node.uint32le (spec_checksum msg))))
       then inl (CRC32Mismatch (Node.toString_hex (declared_checksum msg))
                   (Node.toString_hex (Node.uint32le (spec_checksum msg))))
       else inr {| header := hd;
                   messageType := messageType_of (Node.slice msg 16 20);
                   message := drop 20 msg |}).
Proof.
  eexists. split; cycle 1.
  - unfold DSU_parseMessage. rewrite DSU_calcCRC32_eq.
    cbn [bind packetLength CRC32].
    rewrite slice_of_header by lia.
    rewrite !elem_of_header by lia.
    rewrite slice_body.
    replace (Z.of_nat (length msg) - Z.of_nat (length (Node.slice msg 0 16)))
      with (trailing_bytes msg).
    + reflexivity.
    + unfold trailing_bytes, Node.slice.
      rewrite drop_0, length_take. reflexivity.
  - reflexivity.
Qed.

(** A parse can only succeed, fail on the length or fail on the checksum,
    and it decides in this order. *)
Lemma DSU_parseMessage_cases (msg : Buffer) :
  (Some (trailing_bytes msg) <> declared_length msg /\
   snd (DSU_parseMessage msg) = inl PacketLengthMismatch)
  \/ (Some (trailing_bytes msg) = declared_length msg /\
      declared_checksum msg <> Node.uint32le (spec_checksum msg) /\
      exists e a, snd (DSU_parseMessage msg) = inl (CRC32Mismatch e a))
  \/ (Some (trailing_bytes msg) = declared_length msg /\
      declared_checksum msg = Node.uint32le (spec_checksum msg) /\
      exists hd,
        CRC32 hd = Node.toString_hex (declared_checksum msg) /\
        snd (DSU_parseMessage msg)
        = inr {| header := hd;
                 messageType := messageType_of (Node.slice msg 16 20);
                 message := drop 20 msg |}).
Proof.
  destruct (DSU_parseMessage_eq msg) as (hd & Hcrc & ->). cbn [snd].
  case_bool_decide as Hlen; cbn [negb].
  - right.
    destruct (String.eqb_spec (Node.toString_hex (declared_checksum msg))
                (Node.toString_hex (Node.uint32le (spec_checksum msg))))
      as [Heq|Hne]; cbn [negb].
    + right. apply toString_hex_inj in Heq. eauto 6.
    + left. split; [exact Hlen|]. split; [|eauto].
      intros Heq. apply Hne. rewrite Heq. reflexivity.
  - left. split; [exact Hlen | reflexivity].
Qed.

(** C5 as stated fails on a datagram shorter than a header: the twelve
    bytes of [truncated_datagram] declare a length of zero, which differs from
    the raw length minus 16, and they are nevertheless parsed without a
    length-mismatch error (as an unrecognized message with an empty body). *)
Lemma parseMessage_accepts_truncated_datagram :
  Some (Z.of_nat (length truncated_datagram) - 16)
  <> declared_length truncated_datagram
  /\ snd (DSU_parseMessage truncated_datagram) <> inl PacketLengthMismatch
  /\ exists hd,
       snd (DSU_parseMessage truncated_datagram)
       = inr {| header := hd; messageType := Unknown; message := [] |}.
Proof.
  split; [|split].
  - vm_compute. discriminate.
  - vm_compute. discriminate.
  - eexists. vm_compute. reflexivity.
Qed.

(** C5, amended. [DSU_parseMessage] fails with the length-mismatch error
    exactly when the number of bytes after the header slice (the raw length
    minus 16 for a datagram of at least 16 bytes, zero for a shorter one)
    differs from the declared length field, a missing length byte never
    matching; when the length check passes it fails with the
    checksum-mismatch error exactly when the checksum of the frame with its
    checksum field zeroed differs from the declared checksum; and a parsed
    message is returned only when both checks have passed. *)
Theorem parseMessage_validation (msg : Buffer) :
  (snd (DSU_parseMessage msg) = inl PacketLengthMismatch
   <-> Some (trailing_bytes msg) <> declared_length msg)
  /\ (Some (trailing_bytes msg) = declared_length msg ->
      ((exists e a, snd (DSU_parseMessage msg) = inl (CRC32Mismatch e a))
       <-> Node.uint32le (spec_checksum msg) <> declared_checksum msg))
  /\ (forall p, snd (DSU_parseMessage msg) = inr p ->
        Some (trailing_bytes msg) = declared_length msg
        /\ Node.uint32le (spec_checksum msg) = declared_checksum msg
        /\ message p = drop 20 msg)
  /\ ((16 <= length msg)%nat ->
      trailing_bytes msg = Z.of_nat (length msg) - 16).
Proof.
  destruct (DSU_parseMessage_cases msg)
    as [(Hlen & ->) | [(Hlen & Hcrc & e & a & ->) | (Hlen & Hcrc & hd & _ & ->)]].
  - split; [|split; [|split]].
    + tauto.
    + intros Heq. contradiction.
    + intros p Hp. discriminate Hp.
    + unfold trailing_bytes. lia.
  - split; [|split; [|split]].
    + split; [discriminate | contradiction].
    + intros _. split; [congruence | eauto].
    + intros p Hp. discriminate Hp.
    + unfold trailing_bytes. lia.
  - split; [|split; [|split]].
    + split; [discriminate | contradiction].
    + intros _. split; [intros (e & a & He); discriminate He | congruence].
    + intros p [= <-]. auto.
    + unfold trailing_bytes. lia.
Qed.

Lemma parseMessage_validation_witness :
  Some (trailing_bytes query_slot2_data) = declared_length query_slot2_data
  /\ ((exists e a,
         snd (DSU_parseMessage query_slot2_data) = inl (CRC32Mismatch e a))
      <-> Node.uint32le (spec_checksum query_slot2_data)
          <> declared_checksum query_slot2_data).
Proof.
  assert (Some (trailing_bytes query_slot2_data)
          = declared_length query_slot2_data) as H by (vm_compute; reflexivity).
  split; [exact H|].
  apply (proj1 (proj2 (parseMessage_validation query_slot2_data))).
  exact H.
Defined.

(** ** Frame codec: building *)

Ltac four_bytes l H :=
  let a := fresh "b0" in
  let b := fresh "b1" in
  let c := fresh "b2" in
  let d := fresh "b3" in
  destruct l as [|a [|b [|c [|d [|? ?]]]]]; try discriminate H.

Lemma length_messageType2buffer (t : MessageTypes) :
  length (DSU_messageType2buffer t) = 4%nat.
Proof. destruct t; reflexivity. Qed.

Lemma length_header_senderID (this : DSUServer) :
  length (header_senderID this) = 4%nat.
Proof. unfold header_senderID, Node.copy. apply length_inserts. Qed.

Lemma header_senderID_exact (this : DSUServer) :
  length (DATA_CONTROLLERID this) = 4%nat ->
  header_senderID this = DATA_CONTROLLERID this.
Proof.
  intros H. unfold header_senderID.
  four_bytes (DATA_CONTROLLERID this) H. reflexivity.
Qed.

(** The header as [DSU_generateMessage] fills it before the length and the
    checksum are known. *)
Lemma generateMessage_header (this : DSUServer) :
  Node.copy (DATA_CONTROLLERID this)
    (Node.copy (DSU_number2buffer 1001 2)
       (Node.write "DSUS" (Node.alloc 16) 0) 4) 12
  = [x44; x53; x55; x53; xe9; x03; x00; x00; x00; x00; x00; x00]
    ++ header_senderID this.
Proof.
  change (Node.copy (DSU_number2buffer 1001 2)
            (Node.write "DSUS" (Node.alloc 16) 0) 4)
    with ([x44; x53; x55; x53; xe9; x03; x00; x00; x00; x00; x00; x00]
          ++ Node.alloc 4).
  unfold header_senderID, Node.copy.
  change 12%nat
    with (length [x44; x53; x55; x53; xe9; x03;
                  x00; x00; x00; x00; x00; x00] + 0)%nat.
  apply list_inserts_app_r.
Qed.

Lemma number2buffer_2 (n : Z) :
  DSU_number2buffer n 2
  = [Node.ToUint8 (Z.rem n 256); Node.ToUint8 (Z.rem (n / 256) 256)].
Proof. reflexivity. Qed.

(** [DSU_generateMessage] always returns, and what it returns is the wire
    frame of the specification, checksummed. *)
Lemma DSU_generateMessage_eq (this : DSUServer) (t : MessageTypes)
    (data : Buffer) :
  let len := 4 + Z.of_nat (length data) in
  let id := header_senderID this in
  let code := DSU_messageType2buffer t in
  DSU_generateMessage this t data
  = inr (frame_bytes len (spec_checksum (frame_bytes len 0 id code data))
           id code data).
Proof.
  intros len id code. unfold DSU_generateMessage.
  rewrite generateMessage_header. fold id. fold code.
  pose proof (length_header_senderID this) as Hid. fold id in Hid.
  pose proof (length_messageType2buffer t) as Hcode. fold code in Hcode.
  four_bytes id Hid. four_bytes code Hcode.
  match goal with
  | |- context [DSU_number2buffer ?n 2] =>
      replace n with len by (rewrite !length_app; cbn [length]; lia)
  end.
  unfold frame_bytes. rewrite !number2buffer_2.
  unfold Node.copy at 2. cbn [list_inserts app insert list_insert].
  rewrite DSU_calcCRC32_eq. cbn [bind].
  rewrite from_hex_toString_hex.
  unfold Node.copy, spec_checksum_zeroed, Node.uint32le.
  cbn [list_inserts app insert list_insert take drop length Nat.min Nat.sub
       replicate].
  reflexivity.
Qed.

(** What [DSU_parseMessage] reads in a wire frame. *)
Lemma frame_bytes_fields (len cks : Z) (id code body : Buffer) :
  length id = 4%nat -> length code = 4%nat ->
  trailing_bytes (frame_bytes len cks id code body)
  = 4 + Z.of_nat (length body)
  /\ declared_length (frame_bytes len cks id code body)
     = Some (len mod 65536)
  /\ declared_checksum (frame_bytes len cks id code body) = Node.uint32le cks
  /\ spec_checksum_zeroed (frame_bytes len cks id code body)
     = frame_bytes len 0 id code body
  /\ Node.slice (frame_bytes len cks id code body) 16 20 = code
  /\ drop 20 (frame_bytes len cks id code body) = body.
Proof.
  intros Hid Hcode. four_bytes id Hid. four_bytes code Hcode.
  unfold frame_bytes. rewrite number2buffer_2.
  repeat split.
  - unfold trailing_bytes. cbn [app length Node.uint32le]. lia.
  - unfold declared_length, Node.elem. cbn.
    rewrite !byte2Z_ToUint8, !rem_mod_256.
    f_equal. change 65536 with (256 * 256).
    rewrite (Z.rem_mul_r len 256 256) by lia. ring.
Qed.

(** ** Message type registry *)

(** Decoding the wire code of a kind: three kinds come back, the two kinds
    written with [DSU_number2buffer 110001] and [110002] do not. *)
Lemma messageType_of_messageType2buffer (t : MessageTypes) :
  messageType_of (DSU_messageType2buffer t)
  = match t with
    | ControllerMotor | Rumble => Unknown
    | _ => t
    end.
Proof. destruct t; reflexivity. Qed.

Lemma messageTypeHex_ControllerMotor :
  DSU_messageType2buffer ControllerMotor = [xb1; xad; x01; x00]
  /\ messageTypeHex (DSU_messageType2buffer ControllerMotor) = "1adb1"%string
  /\ messageTypeHex [x01; x00; x11; x00] = "110001"%string.
Proof. repeat split. Qed.

Lemma table_lookup_key (key : string) (t : MessageTypes) :
  table_lookup messageType_table key = Some t ->
  key = match t with
        | ProtocolVersionInformation => "100000"
        | ConnectedControllers => "100001"
        | ControllerData => "100002"
        | ControllerMotor => "110001"
        | Rumble => "110002"
        | Unknown => ""
        end%string.
Proof.
  unfold messageType_table, table_lookup.
  repeat match goal with
         | |- context [String.eqb ?k key] =>
             destruct (String.eqb_spec k key) as [<-|_]
         end;
    intros [= <-]; reflexivity.
Qed.

Lemma Number_toString16_inj (v : option Z) (n : positive) :
  Node.Number_toString16 v = HexString.Raw.of_pos n "" ->
  is_Some (HexString.ascii_to_digit
             (match HexString.Raw.of_pos n "" with
              | String c _ => c
              | EmptyString => "-"%char
              end)) ->
  v = Some (Z.pos n).
Proof.
  intros H Hd. destruct v as [[|p|p]|]; cbn [Node.Number_toString16] in H.
  - apply (f_equal (fun s => HexString.Raw.to_N s 0%N)) in H.
    rewrite HexString.Raw.to_N_of_pos in H. discriminate H.
  - apply (f_equal (fun s => HexString.Raw.to_N s 0%N)) in H.
    rewrite !HexString.Raw.to_N_of_pos in H. cbn in H.
    injection H as ->. reflexivity.
  - rewrite <- H in Hd. destruct Hd as [? Hd]. discriminate Hd.
  - rewrite <- H in Hd. destruct Hd as [? Hd]. discriminate Hd.
Qed.

(** A code that decodes to one of the three kinds is the wire code of that
    kind. *)
Lemma messageType_of_inv (code : Buffer) (t : MessageTypes) :
  (length code <= 4)%nat ->
  messageType_of code = t ->
  t = ProtocolVersionInformation \/ t = ConnectedControllers
  \/ t = ControllerData ->
  code = DSU_messageType2buffer t.
Proof.
  intros Hlen Hdec Ht. unfold messageType_of in Hdec.
  destruct (table_lookup messageType_table (messageTypeHex code))
    as [t'|] eqn:E; simpl in Hdec;
    [subst t'|subst t; destruct Ht as [?|[?|?]]; discriminate].
  apply table_lookup_key in E.
  assert (exists n : positive,
             messageTypeHex code = HexString.Raw.of_pos n ""
             /\ DSU_messageType2buffer t = Node.uint32le (Z.pos n)
             /\ (0x100000 <= Z.pos n <= 0x100002))
    as (n & Hn & -> & Hcase).
  { destruct Ht as [-> | [-> | ->]]; rewrite E;
      [exists 0x100000%positive | exists 0x100001%positive
       | exists 0x100002%positive]; repeat split; lia. }
  clear E Ht. unfold messageTypeHex in Hn.
  apply Number_toString16_inj in Hn.
  - unfold Node.elem in Hn.
    destruct code as [|c0 [|c1 [|c2 [|c3 [|? ?]]]]];
      cbn in Hn; try discriminate Hn; [|cbn in Hlen; lia].
    injection Hn as Hn.
    pose proof (byte2Z_range c0). pose proof (byte2Z_range c1).
    pose proof (byte2Z_range c2). pose proof (byte2Z_range c3).
    assert (Z.pos n = 0x100000 \/ Z.pos n = 0x100001 \/ Z.pos n = 0x100002)
      as Hv by lia.
    assert (Node.byte2Z c0 = Z.pos n - 0x100000 /\ Node.byte2Z c1 = 0
            /\ Node.byte2Z c2 = 16 /\ Node.byte2Z c3 = 0)
      as (E0 & E1 & E2 & E3) by lia.
    rewrite <- (ToUint8_byte2Z c0), <- (ToUint8_byte2Z c1),
      <- (ToUint8_byte2Z c2), <- (ToUint8_byte2Z c3), E0, E1, E2, E3.
    destruct Hv as [-> | [-> | ->]]; reflexivity.
  - assert (n = 0x100000 \/ n = 0x100001 \/ n = 0x100002)%positive
      as [-> | [-> | ->]] by lia; eexists; reflexivity.
Qed.

(** ** Frame codec: building, then parsing *)

Lemma spec_checksum_frame (len cks : Z) (id code body : Buffer) :
  length id = 4%nat -> length code = 4%nat ->
  spec_checksum (frame_bytes len cks id code body)
  = spec_checksum (frame_bytes len 0 id code body).
Proof.
  intros Hid Hcode. unfold spec_checksum.
  destruct (frame_bytes_fields len cks id code body Hid Hcode)
    as (_ & _ & _ & -> & _).
  destruct (frame_bytes_fields len 0 id code body Hid Hcode)
    as (_ & _ & _ & -> & _).
  reflexivity.
Qed.

(** Parsing a frame that [DSU_generateMessage] built: the checksum always
    verifies; the length verifies exactly when it fits the two-byte field. *)
Lemma parseMessage_generateMessage (this : DSUServer) (t : MessageTypes)
    (data : Buffer) :
  exists (frame : Buffer) (hd : DSUHeader),
    DSU_generateMessage this t data = inr frame /\
    snd (DSU_parseMessage frame)
    = if bool_decide (Z.of_nat (length data) <= 65531)
      then inr {| header := hd;
                  messageType := messageType_of (DSU_messageType2buffer t);
                  message := data |}
      else inl PacketLengthMismatch.
Proof.
  rewrite DSU_generateMessage_eq.
  set (len := 4 + Z.of_nat (length data)).
  set (id := header_senderID this).
  set (code := DSU_messageType2buffer t).
  set (cks := spec_checksum (frame_bytes len 0 id code data)).
  pose proof (length_header_senderID this) as Hid. fold id in Hid.
  pose proof (length_messageType2buffer t) as Hcode. fold code in Hcode.
  destruct (DSU_parseMessage_eq (frame_bytes len cks id code data))
    as (hd & _ & Hparse).
  exists (frame_bytes len cks id code data), hd.
  split; [reflexivity|]. rewrite Hparse. clear Hparse. cbn [snd].
  rewrite spec_checksum_frame by assumption. fold cks.
  destruct (frame_bytes_fields len cks id code data Hid Hcode)
    as (-> & -> & -> & _ & -> & ->).
  rewrite String.eqb_refl. cbn [negb]. fold len.
  do 2 case_bool_decide; cbn [negb]; try reflexivity; exfalso.
  - match goal with H : Some _ = Some _ |- _ => injection H as H end.
    pose proof (Z.mod_pos_bound len 65536 ltac:(lia)).
    subst len. lia.
  - match goal with H : Some _ <> Some _ |- _ => apply H end.
    rewrite Z.mod_small by (subst len; lia). reflexivity.
Qed.

(** C1 as stated fails on a body that does not fit the two-byte length
    field: the frame built for a body of 65532 bytes carries the length
    65536 reduced modulo 65536 and is rejected by [DSU_parseMessage]. *)
Lemma generateMessage_parseMessage_long_body :
  exists frame : Buffer,
    DSU_generateMessage fresh_server ProtocolVersionInformation
      (replicate (Z.to_nat 65532) x00) = inr frame
    /\ snd (DSU_parseMessage frame) = inl PacketLengthMismatch.
Proof.
  destruct (parseMessage_generateMessage fresh_server
              ProtocolVersionInformation (replicate (Z.to_nat 65532) x00))
    as (frame & hd & Hgen & Hparse).
  exists frame. split; [exact Hgen|].
  rewrite Hparse. rewrite bool_decide_eq_false_2; [reflexivity|].
  rewrite length_replicate. lia.
Qed.

(** The frame built for a controller-motor message is parsed as an
    unrecognized message: the code is written from the decimal number
    110001 and looked up under the hexadecimal text "110001". *)
Lemma generateMessage_parseMessage_ControllerMotor :
  exists (frame : Buffer) (hd : DSUHeader),
    DSU_generateMessage fresh_server ControllerMotor [] = inr frame
    /\ snd (DSU_parseMessage frame)
       = inr {| header := hd; messageType := Unknown; message := [] |}.
Proof.
  destruct (parseMessage_generateMessage fresh_server ControllerMotor [])
    as (frame & hd & Hgen & Hparse).
  exists frame, hd. split; [exact Hgen|]. rewrite Hparse. reflexivity.
Qed.

Lemma generateMessage_parseMessage_Rumble :
  exists (frame : Buffer) (hd : DSUHeader),
    DSU_generateMessage fresh_server Rumble [] = inr frame
    /\ snd (DSU_parseMessage frame)
       = inr {| header := hd; messageType := Unknown; message := [] |}.
Proof.
  destruct (parseMessage_generateMessage fresh_server Rumble [])
    as (frame & hd & Hgen & Hparse).
  exists frame, hd. split; [exact Hgen|]. rewrite Hparse. reflexivity.
Qed.

(** C1, amended. For every kind other than controller-motor and rumble and
    every body of at most 65531 bytes, [DSU_generateMessage] returns a frame
    that [DSU_parseMessage] accepts, giving back that kind and that body;
    the wire code of such a kind decodes to the kind, and, for the three
    kinds with a code of their own, a datagram parsed as that kind carries
    exactly its wire code. *)
Theorem generateMessage_parseMessage_roundtrip (this : DSUServer)
    (t : MessageTypes) (data : Buffer) :
  t <> ControllerMotor -> t <> Rumble -> Z.of_nat (length data) <= 65531 ->
  (exists (frame : Buffer) (hd : DSUHeader),
      DSU_generateMessage this t data = inr frame /\
      snd (DSU_parseMessage frame)
      = inr {| header := hd; messageType := t; message := data |})
  /\ messageType_of (DSU_messageType2buffer t) = t
  /\ (t <> Unknown ->
      forall (msg : Buffer) (p : ParsedMessage),
        snd (DSU_parseMessage msg) = inr p -> messageType p = t ->
        Node.slice msg 16 20 = DSU_messageType2buffer t).
Proof.
  intros Hm Hr Hlen.
  assert (messageType_of (DSU_messageType2buffer t) = t) as Hdec
      by (rewrite messageType_of_messageType2buffer; destruct t; congruence).
  split; [|split].
  - destruct (parseMessage_generateMessage this t data)
      as (frame & hd & Hgen & Hparse).
    exists frame, hd. split; [exact Hgen|].
    rewrite Hparse, Hdec, bool_decide_eq_true_2 by exact Hlen. reflexivity.
  - exact Hdec.
  - intros Hu msg p Hp Hk.
    destruct (DSU_parseMessage_cases msg)
      as [(_ & H) | [(_ & _ & e & a & H) | (_ & _ & hd & _ & H)]];
      rewrite H in Hp; try discriminate Hp.
    injection Hp as <-. cbn [messageType] in Hk.
    apply messageType_of_inv.
    + unfold Node.slice. rewrite length_take. lia.
    + exact Hk.
    + destruct t; tauto.
Qed.

Lemma generateMessage_parseMessage_roundtrip_witness :
  exists (frame : Buffer) (hd : DSUHeader),
    DSU_generateMessage fresh_server ControllerData [x01; x02] = inr frame /\
    snd (DSU_parseMessage frame)
    = inr {| header := hd; messageType := ControllerData;
             message := [x01; x02] |}.
Proof.
  apply (generateMessage_parseMessage_roundtrip
           fresh_server ControllerData [x01; x02]).
  - discriminate.
  - discriminate.
  - simpl. lia.
Defined.

(** ** Checksum: the encode and decode paths *)

(** C6. [DSU_calcCRC32] returns, as the hexadecimal text of four
    little-endian bytes, the CRC-32 of the frame with bytes 8 to 11 forced
    to zero, brought into [0, 2^32) by adding 2^32 when the signed result is
    negative. The checksum field of every frame built by
    [DSU_generateMessage] is the value of that same function on the frame,
    and [DSU_parseMessage] accepts a datagram only when its checksum field
    is the value of that same function on the datagram. *)
Theorem DSU_calcCRC32_checksum :
  (forall msg : Buffer,
      0 <= spec_checksum msg < 2 ^ 32 /\
      exists bytes : Buffer,
        snd (DSU_calcCRC32 msg) = inr (Node.toString_hex bytes) /\
        length bytes = 4%nat /\
        DSU_littleEndian2number bytes = spec_checksum msg)
  /\ (forall (this : DSUServer) (t : MessageTypes) (data : Buffer),
         exists frame : Buffer,
           DSU_generateMessage this t data = inr frame /\
           snd (DSU_calcCRC32 frame)
           = inr (Node.toString_hex (declared_checksum frame)))
  /\ (forall (msg : Buffer) (p : ParsedMessage),
         snd (DSU_parseMessage msg) = inr p ->
         snd (DSU_calcCRC32 msg)
         = inr (Node.toString_hex (declared_checksum msg))).
Proof.
  split; [|split].
  - intros msg. pose proof (spec_checksum_range msg) as Hr.
    split; [exact Hr|].
    exists (Node.uint32le (spec_checksum msg)).
    rewrite DSU_calcCRC32_eq. cbn [snd].
    split; [reflexivity|]. split; [reflexivity|].
    rewrite uint32le_number2buffer, littleEndian2number_number2buffer.
    apply Z.mod_small. exact Hr.
  - intros this t data. rewrite DSU_generateMessage_eq.
    eexists. split; [reflexivity|].
    pose proof (length_header_senderID this) as Hid.
    pose proof (length_messageType2buffer t) as Hcode.
    rewrite DSU_calcCRC32_eq. cbn [snd].
    rewrite spec_checksum_frame by assumption.
    match goal with
    | |- context [declared_checksum (frame_bytes ?l ?c ?i ?k ?b)] =>
        destruct (frame_bytes_fields l c i k b Hid Hcode)
          as (_ & _ & -> & _)
    end.
    reflexivity.
  - intros msg p Hp. rewrite DSU_calcCRC32_eq. cbn [snd].
    destruct (DSU_parseMessage_cases msg)
      as [(_ & H) | [(_ & _ & e & a & H) | (_ & Hcrc & _)]];
      try (rewrite H in Hp; discriminate Hp).
    rewrite Hcrc. reflexivity.
Qed.

Lemma DSU_calcCRC32_checksum_witness :
  snd (DSU_calcCRC32 query_slot2_data)
  = inr (Node.toString_hex (declared_checksum query_slot2_data)).
Proof.
  destruct (DSU_parseMessage_cases query_slot2_data)
    as [(Hne & _) | [(_ & Hne & _) | (_ & _ & hd & _ & Hp)]].
  - exfalso. apply Hne. vm_compute. reflexivity.
  - exfalso. apply Hne. vm_compute. reflexivity.
  - exact (proj2 (proj2 DSU_calcCRC32_checksum) query_slot2_data _ Hp).
Defined.

Lemma declared_checksum_zeroed (msg : Buffer) :
  declared_checksum (spec_checksum_zeroed msg)
  = replicate (length (declared_checksum msg)) x00.
Proof.
  unfold declared_checksum, Node.slice, spec_checksum_zeroed.
  do 12 (destruct msg as [|? msg]; [reflexivity|]).
  reflexivity.
Qed.

(** C7. [DSU_calcCRC32], and with it [DSU_parseMessage] whatever its
    outcome, leaves the buffer it was given with bytes 8 to 11 set to zero
    and every other byte as it was: the checksum field is not restored, so
    a declared checksum that was not zero is no longer in the caller's
    buffer after the call. *)
Theorem parseMessage_overwrites_checksum_field (msg : Buffer) :
  fst (DSU_calcCRC32 msg) = fst (DSU_parseMessage msg)
  /\ length (fst (DSU_parseMessage msg)) = length msg
  /\ (forall i : nat,
         fst (DSU_parseMessage msg) !! i
         = if bool_decide (8 <= i < 12)%nat
           then (fun _ => x00) <$> msg !! i
           else msg !! i)
  /\ (declared_checksum msg <> replicate (length (declared_checksum msg)) x00
      -> declared_checksum (fst (DSU_parseMessage msg))
         <> declared_checksum msg).
Proof.
  destruct (DSU_parseMessage_eq msg) as (hd & _ & ->).
  rewrite DSU_calcCRC32_eq. cbn [fst].
  split; [reflexivity|]. split; [apply length_spec_checksum_zeroed|].
  split; [apply lookup_spec_checksum_zeroed|].
  intros Hnz Heq. apply Hnz.
  rewrite <- Heq at 1. apply declared_checksum_zeroed.
Qed.

Lemma parseMessage_overwrites_checksum_field_witness :
  declared_checksum (fst (DSU_parseMessage query_slot2_data))
  <> declared_checksum query_slot2_data.
Proof.
  apply (proj2 (proj2 (proj2
           (parseMessage_overwrites_checksum_field query_slot2_data)))).
  vm_compute. discriminate.
Defined.

(** ** Controller state store *)

Lemma store_ok_initial : store_ok fresh_server.
Proof. reflexivity. Qed.

Lemma DSU_setControllerState_store_ok (this : DSUServer) (index : Z)
    (state : ControllerState) :
  store_ok this -> store_ok (fst (DSU_setControllerState this index state)).
Proof.
  unfold store_ok, DSU_setControllerState. intros H.
  destruct ((index <? 0) || (index >? 3))%bool; cbn; [exact H|].
  rewrite length_insert. exact H.
Qed.

Lemma DSU_setControllersState_store_ok (this : DSUServer)
    (state : list ControllerState) :
  store_ok this -> store_ok (fst (DSU_setControllersState this state)).
Proof.
  unfold store_ok, DSU_setControllersState. intros H.
  destruct (length state =? 4)%nat eqn:E; cbn; [|exact H].
  apply Nat.eqb_eq. exact E.
Qed.

(** C9. [DSU_setControllerState] throws for every index outside [0, 3] and
    [DSU_setControllersState] throws for every array whose length is not 4,
    in both cases leaving the server unchanged; for an index in [0, 3] the
    designated slot of the four-slot store is replaced and the other slots
    are kept, and an array of length 4 replaces the whole store. *)
Theorem setControllerState_contract (this : DSUServer) :
  (forall (index : Z) (state : ControllerState),
      (index < 0 \/ 3 < index ->
       DSU_setControllerState this index state
       = (this, inl InvalidControllerIndex))
      /\ (0 <= index <= 3 -> store_ok this ->
          exists this' : DSUServer,
            DSU_setControllerState this index state = (this', inr tt)
            /\ DATA_CONTROLLERID this' = DATA_CONTROLLERID this
            /\ store_ok this'
            /\ DSU_getControllerState this' index = Some state
            /\ forall j : Z,
                 j <> index ->
                 DSU_getControllerState this' j
                 = DSU_getControllerState this j))
  /\ (forall states : list ControllerState,
         (length states <> 4%nat ->
          DSU_setControllersState this states
          = (this, inl InvalidControllerStateArrayLength))
         /\ (length states = 4%nat ->
             DSU_setControllersState this states
             = ({| DATA_CONTROLLERID := DATA_CONTROLLERID this;
                   DATA_controllerStates := states |}, inr tt))).
Proof.
  split.
  - intros index state. split.
    + intros Hout. unfold DSU_setControllerState.
      destruct (Z.ltb_spec index 0), (Z.gtb_spec index 3);
        cbn [orb]; try reflexivity; lia.
    + intros Hin Hok. unfold DSU_setControllerState.
      destruct (Z.ltb_spec index 0), (Z.gtb_spec index 3);
        cbn [orb]; try lia.
      eexists. split; [reflexivity|]. split; [reflexivity|].
      unfold store_ok, DSU_getControllerState in *.
      cbn [DATA_controllerStates].
      split; [rewrite length_insert; exact Hok|].
      split.
      * destruct (Z.ltb_spec index 0); [lia|].
        apply list_lookup_insert_eq. lia.
      * intros j Hj. destruct (Z.ltb_spec j 0); [reflexivity|].
        apply list_lookup_insert_ne. lia.
  - intros states. unfold DSU_setControllersState. split; intros H.
    + apply Nat.eqb_neq in H. rewrite H. reflexivity.
    + apply Nat.eqb_eq in H. rewrite H. reflexivity.
Qed.

Lemma setControllerState_contract_witness :
  DSU_setControllerState fresh_server 4 connected_dummy
  = (fresh_server, inl InvalidControllerIndex)
  /\ (exists this' : DSUServer,
        DSU_setControllerState fresh_server 0 connected_dummy
        = (this', inr tt)
        /\ DSU_getControllerState this' 0 = Some connected_dummy)
  /\ DSU_setControllersState fresh_server [connected_dummy]
     = (fresh_server, inl InvalidControllerStateArrayLength).
Proof.
  destruct (setControllerState_contract fresh_server) as [Hone Hall].
  split; [|split].
  - apply (proj1 (Hone 4 connected_dummy)). lia.
  - destruct (proj2 (Hone 0 connected_dummy) ltac:(lia) store_ok_initial)
      as (this' & Hset & _ & _ & Hget & _).
    exists this'. split; [exact Hset | exact Hget].
  - apply (proj1 (Hall [connected_dummy])). simpl. lia.
Defined.

(** ** Slot summary *)

Lemma length_createControllerData (this : DSUServer) (slot : Z)
    (enabled : bool) :
  length (DSU_createControllerData this slot enabled) = 12%nat.
Proof.
  unfold DSU_createControllerData, Node.copy.
  destruct enabled; cbn [negb];
    rewrite ?length_insert, ?length_inserts, ?length_insert; reflexivity.
Qed.

Lemma createControllerData_disconnected (this : DSUServer) (slot : Z) :
  DSU_createControllerData this slot false
  = Node.ToUint8 slot :: replicate 11 x00.
Proof. reflexivity. Qed.

(** With the four-byte sender identifier that [DSU_generateID] produces,
    the element write [MACADRESS[5] = slot] falls outside the copied
    identifier: bytes 4 to 7 are the identifier unchanged and bytes 8 and 9
    stay zero. *)
Lemma createControllerData_connected (this : DSUServer) (slot : Z) :
  length (DATA_CONTROLLERID this) = 4%nat ->
  DSU_createControllerData this slot true
  = [Node.ToUint8 slot; x02; x02; x01]
    ++ DATA_CONTROLLERID this ++ [x00; x00; x05; x00].
Proof.
  intros H. unfold DSU_createControllerData, Node.from_buffer.
  four_bytes (DATA_CONTROLLERID this) H. reflexivity.
Qed.

(** C3 at slot 1 of a connected server: the summary has twelve bytes, the
    constants are in place, but the identifier field holds the sender
    identifier followed by two zero bytes. It is not the identifier that the
    specification describes, and none of its bytes is the slot index. *)
Theorem createControllerData_identifier_without_slot :
  DSU_createControllerData slot0_server 1 true
  = [x01; x02; x02; x01; x11; x22; x33; x44; x00; x00; x05; x00]
  /\ spec_identifier slot0_server 1 = [x11; x22; x33; x44; x00; x01]
  /\ Node.slice (DSU_createControllerData slot0_server 1 true) 4 10
     <> spec_identifier slot0_server 1
  /\ forall i : nat,
       (4 <= i < 10)%nat ->
       DSU_createControllerData slot0_server 1 true !! i <> Some x01.
Proof.
  split; [reflexivity|]. split; [reflexivity|]. split.
  - vm_compute. discriminate.
  - intros i Hi.
    assert (i = 4 \/ i = 5 \/ i = 6 \/ i = 7 \/ i = 8 \/ i = 9)%nat
      as [-> | [-> | [-> | [-> | [-> | ->]]]]] by lia;
      vm_compute; discriminate.
Qed.

(** ** State payload *)

Lemma length_state2buffer (this : DSUServer) (slot : Z)
    (state : ControllerState) :
  exists payload : Buffer,
    DSU_state2buffer this slot (Some state) = inr payload
    /\ length payload = 80%nat.
Proof.
  unfold DSU_state2buffer. eexists. split; [reflexivity|].
  unfold Node.copy.
  repeat first [rewrite length_insert | rewrite length_inserts].
  reflexivity.
Qed.

Lemma state2buffer_default (this : DSUServer) (slot : Z) :
  DSU_state2buffer this slot None
  = match DSU_getControllerState this slot with
    | Some state => DSU_state2buffer this slot (Some state)
    | None => inl TypeError
    end.
Proof.
  unfold DSU_state2buffer.
  destruct (DSU_getControllerState this slot); reflexivity.
Qed.

(** ** Request dispatcher: controller-data queries *)

(** The handler on a controller-data query whose body designates a slot. *)
Lemma handler_ControllerData (this : DSUServer) (msg : Buffer)
    (p : ParsedMessage) (index : Z) :
  snd (DSU_parseMessage msg) = inr p ->
  messageType p = ControllerData ->
  resolves_to (message p) index ->
  UDP_DefaultHandler this msg
  = match
      body <- DSU_state2buffer this index None ;;
      DSU_generateMessage this ControllerData body
    with
    | inl e => {| server_after := this; msg_after := fst (DSU_parseMessage msg);
                  sent := []; caught := Some e |}
    | inr frame =>
        {| server_after := this; msg_after := fst (DSU_parseMessage msg);
           sent := [frame]; caught := None |}
    end.
Proof.
  intros Hp Hk Hres. unfold UDP_DefaultHandler.
  destruct (DSU_parseMessage msg) as [m r]. cbn [snd fst] in *. subst r.
  rewrite Hk.
  destruct Hres as [[H0 H1] | [H0 H7]]; rewrite H0.
  - rewrite bool_decide_eq_true_2 by reflexivity. rewrite H1.
    destruct (body <- DSU_state2buffer this index None ;;
              DSU_generateMessage this ControllerData body); reflexivity.
  - rewrite bool_decide_eq_false_2 by discriminate.
    rewrite bool_decide_eq_true_2 by reflexivity. rewrite H7.
    destruct (body <- DSU_state2buffer this index None ;;
              DSU_generateMessage this ControllerData body); reflexivity.
Qed.

(** C4 as stated fails when the designated slot is not in the store: the
    datagram [query_slot4_data] is a valid controller-data query whose body
    byte 0 is 1, and the handler sends nothing in answer to it. *)
Lemma controller_data_query_slot4_no_response :
  (exists hd : DSUHeader,
      snd (DSU_parseMessage query_slot4_data)
      = inr {| header := hd; messageType := ControllerData;
               message := [x01; x04] |})
  /\ sent (UDP_DefaultHandler fresh_server query_slot4_data) = [].
Proof.
  split.
  - eexists. vm_compute. reflexivity.
  - vm_compute. reflexivity.
Qed.

(** C4, amended. For every valid controller-data query: if body byte 0 is
    1 and body byte 1 is the index of a slot of the store, or body byte 0
    is 2 and body byte 7 is such an index, the handler sends exactly one
    controller-data frame, whose body is the 80-byte state payload
    of that slot built from the store the handler reads; if body byte 0 is
    neither 1 nor 2, the handler sends nothing and catches no error. *)
Theorem controller_data_query (this : DSUServer) (msg : Buffer)
    (p : ParsedMessage) :
  snd (DSU_parseMessage msg) = inr p ->
  messageType p = ControllerData ->
  (forall (index : Z) (state : ControllerState),
      resolves_to (message p) index ->
      DSU_getControllerState this index = Some state ->
      exists (payload frame : Buffer) (hd : DSUHeader),
        DSU_state2buffer this index (Some state) = inr payload
        /\ length payload = 80%nat
        /\ sent (UDP_DefaultHandler this msg) = [frame]
        /\ caught (UDP_DefaultHandler this msg) = None
        /\ snd (DSU_parseMessage frame)
           = inr {| header := hd; messageType := ControllerData;
                    message := payload |})
  /\ (Node.elem (message p) 0 <> Some 1 ->
      Node.elem (message p) 0 <> Some 2 ->
      sent (UDP_DefaultHandler this msg) = []
      /\ caught (UDP_DefaultHandler this msg) = None).
Proof.
  intros Hp Hk. split.
  - intros index state Hres Hget.
    rewrite (handler_ControllerData this msg p index Hp Hk Hres).
    rewrite state2buffer_default, Hget.
    destruct (length_state2buffer this index state)
      as (payload & Hpay & Hlen).
    destruct (parseMessage_generateMessage this ControllerData payload)
      as (frame & hd & Hgen & Hparse).
    exists payload, frame, hd.
    rewrite Hpay. cbn [bind]. rewrite Hgen. cbn [sent caught].
    repeat split; try assumption.
    rewrite Hparse, bool_decide_eq_true_2 by lia. reflexivity.
  - intros H1 H2. unfold UDP_DefaultHandler.
    destruct (DSU_parseMessage msg) as [m r]. cbn [snd] in Hp. subst r.
    rewrite Hk.
    rewrite bool_decide_eq_false_2 by exact H1.
    rewrite bool_decide_eq_false_2 by exact H2.
    split; reflexivity.
Qed.

Lemma controller_data_query_witness :
  exists (payload frame : Buffer),
    DSU_state2buffer fresh_server 2 (Some DSU_dummyState) = inr payload
    /\ length payload = 80%nat
    /\ sent (UDP_DefaultHandler fresh_server query_slot2_data) = [frame].
Proof.
  destruct (snd (DSU_parseMessage query_slot2_data)) as [e|p] eqn:Hp.
  - vm_compute in Hp. discriminate Hp.
  - assert (messageType p = ControllerData /\ message p = [x01; x02])
      as [Hk Hm] by (vm_compute in Hp; injection Hp as <-; split; reflexivity).
    destruct (proj1 (controller_data_query fresh_server query_slot2_data p
                       Hp Hk) 2 DSU_dummyState)
      as (payload & frame & hd & Hpay & Hlen & Hsent & _).
    + left. rewrite Hm. split; reflexivity.
    + reflexivity.
    + exists payload, frame. auto.
Defined.

(** C10. For every valid controller-data query whose designated slot index
    lies outside [0, 3], the four-slot store has no state for that index, the
    handler sends nothing, the resulting error is caught inside the handler
    and the server object is left as it was. *)
Theorem controller_data_query_out_of_range (this : DSUServer) (msg : Buffer)
    (p : ParsedMessage) (index : Z) :
  store_ok this ->
  snd (DSU_parseMessage msg) = inr p ->
  messageType p = ControllerData ->
  resolves_to (message p) index ->
  index < 0 \/ 3 < index ->
  DSU_getControllerState this index = None
  /\ sent (UDP_DefaultHandler this msg) = []
  /\ caught (UDP_DefaultHandler this msg) = Some TypeError
  /\ server_after (UDP_DefaultHandler this msg) = this.
Proof.
  intros Hok Hp Hk Hres Hidx.
  assert (DSU_getControllerState this index = None) as Hnone.
  { unfold DSU_getControllerState.
    destruct (Z.ltb_spec index 0); [reflexivity|].
    apply lookup_ge_None. unfold store_ok in Hok. lia. }
  split; [exact Hnone|].
  rewrite (handler_ControllerData this msg p index Hp Hk Hres).
  rewrite state2buffer_default, Hnone. cbn [bind].
  repeat split.
Qed.

Lemma controller_data_query_out_of_range_witness :
  sent (UDP_DefaultHandler fresh_server query_slot4_data) = []
  /\ caught (UDP_DefaultHandler fresh_server query_slot4_data) = Some TypeError.
Proof.
  destruct (snd (DSU_parseMessage query_slot4_data)) as [e|p] eqn:Hp.
  - vm_compute in Hp. discriminate Hp.
  - assert (messageType p = ControllerData /\ message p = [x01; x04])
      as [Hk Hm] by (vm_compute in Hp; injection Hp as <-; split; reflexivity).
    destruct (controller_data_query_out_of_range
                fresh_server query_slot4_data p 4 store_ok_initial Hp Hk)
      as (_ & Hsent & Hcaught & _).
    + left. rewrite Hm. split; reflexivity.
    + right. lia.
    + split; assumption.
Defined.

(** ** Request dispatcher: connected-controllers queries *)

Lemma getControllerState_nat (this : DSUServer) (i : nat) :
  DSU_getControllerState this (Z.of_nat i) = DATA_controllerStates this !! i.
Proof.
  unfold DSU_getControllerState.
  destruct (Z.ltb_spec (Z.of_nat i) 0); [lia|].
  rewrite Nat2Z.id. reflexivity.
Qed.

(** While the loop counter stays inside the store, every iteration sends
    one frame, keyed by the connection flag of the slot that the loop
    counter designates. *)
Lemma ConnectedControllers_loop_inside (this : DSUServer) (body : Buffer)
    (todo slot : nat) (out : list Buffer) :
  (slot + todo <= length (DATA_controllerStates this))%nat ->
  exists frames : list Buffer,
    ConnectedControllers_loop this body todo slot out = (out ++ frames, None)
    /\ length frames = todo
    /\ forall (i : nat) (frame : Buffer),
         frames !! i = Some frame -> info_frame this body (slot + i) frame.
Proof.
  revert slot out. induction todo as [|todo IH]; intros slot out Hlen.
  - exists []. cbn. rewrite app_nil_r.
    repeat split. intros i frame Hi. discriminate Hi.
  - cbn [ConnectedControllers_loop]. rewrite getControllerState_nat.
    destruct (DATA_controllerStates this !! slot) as [state|] eqn:Hst;
      [|apply lookup_ge_None in Hst; lia].
    rewrite DSU_generateMessage_eq.
    match goal with
    | |- context [ConnectedControllers_loop _ _ _ _ (out ++ [?f])] =>
        set (frame0 := f)
    end.
    destruct (IH (S slot) (out ++ [frame0]) ltac:(lia))
      as (frames & Hloop & Hn & Hall).
    exists (frame0 :: frames). rewrite Hloop, <- app_assoc.
    split; [reflexivity|]. split; [cbn; lia|].
    intros [|i] frame Hi.
    + injection Hi as <-. rewrite Nat.add_0_r.
      exists state. split; [exact Hst|]. apply DSU_generateMessage_eq.
    + replace (slot + S i)%nat with (S slot + i)%nat by lia.
      apply Hall. exact Hi.
Qed.

(** Once the loop counter leaves the store, the next iteration reads
    [connected] on [undefined] and the loop ends with a [TypeError]. *)
Lemma ConnectedControllers_loop_outside (this : DSUServer) (body : Buffer)
    (todo slot : nat) (out : list Buffer) :
  (length (DATA_controllerStates this) <= slot)%nat ->
  ConnectedControllers_loop this body (S todo) slot out
  = (out, Some TypeError).
Proof.
  intros Hlen. cbn [ConnectedControllers_loop].
  rewrite getControllerState_nat.
  rewrite (proj2 (lookup_ge_None _ _) Hlen). reflexivity.
Qed.

Lemma ConnectedControllers_loop_app (this : DSUServer) (body : Buffer)
    (n m slot : nat) (out : list Buffer) :
  ConnectedControllers_loop this body (n + m) slot out
  = match ConnectedControllers_loop this body n slot out with
    | (out', None) => ConnectedControllers_loop this body m (slot + n) out'
    | (out', Some e) => (out', Some e)
    end.
Proof.
  revert slot out. induction n as [|n IH]; intros slot out.
  - cbn. rewrite Nat.add_0_r. reflexivity.
  - cbn [ConnectedControllers_loop Nat.add].
    destruct (DSU_getControllerState this (Z.of_nat slot)); [|reflexivity].
    destruct (DSU_generateMessage this ConnectedControllers _);
      [reflexivity|].
    rewrite IH. replace (S slot + n)%nat with (slot + S n)%nat by lia.
    reflexivity.
Qed.

(** What the handler does on a valid connected-controllers query for [n]
    slots: for [n] up to 4 it sends [n] frames, the frame of iteration [i]
    carrying the connection flag of store slot [i]; for a larger [n] it
    sends four frames and catches a [TypeError]. *)
Lemma handler_ConnectedControllers (this : DSUServer) (msg : Buffer)
    (p : ParsedMessage) :
  store_ok this ->
  snd (DSU_parseMessage msg) = inr p ->
  messageType p = ConnectedControllers ->
  let n := Z.to_nat (DSU_littleEndian2number (Node.slice (message p) 0 4)) in
  exists frames : list Buffer,
    sent (UDP_DefaultHandler this msg) = frames
    /\ length frames = Nat.min n 4
    /\ caught (UDP_DefaultHandler this msg)
       = (if bool_decide (n <= 4)%nat then None else Some TypeError)
    /\ forall (i : nat) (frame : Buffer),
         frames !! i = Some frame -> info_frame this (message p) i frame.
Proof.
  intros Hok Hp Hk n. unfold UDP_DefaultHandler.
  destruct (DSU_parseMessage msg) as [m r]. cbn [snd] in Hp. subst r.
  rewrite Hk. cbn [sent caught]. fold n. unfold store_ok in Hok.
  case_bool_decide as Hn.
  - destruct (ConnectedControllers_loop_inside this (message p) n 0 [])
      as (frames & -> & Hlen & Hall); [lia|].
    exists frames. cbn [fst snd app].
    repeat split; [lia | exact Hall].
  - replace n with (4 + S (n - 5))%nat by lia.
    rewrite ConnectedControllers_loop_app.
    destruct (ConnectedControllers_loop_inside this (message p) 4 0 [])
      as (frames & -> & Hlen & Hall); [lia|].
    rewrite ConnectedControllers_loop_outside by (cbn; lia).
    exists frames. cbn [fst snd app].
    repeat split; [lia | exact Hall].
Qed.

(** C2 at a query for slot 1 alone, on a server whose slot 0 is connected
    and whose slot 1 is not: the handler sends one connected-controllers
    frame, for slot index 1 as requested, but its body is the summary of a
    connected controller. The flag is read from store slot 0, the value of
    the loop counter, and not from the requested slot 1. *)
Theorem connected_controllers_query_reads_loop_counter_slot :
  connected <$> DSU_getControllerState slot0_server 0 = Some true
  /\ connected <$> DSU_getControllerState slot0_server 1 = Some false
  /\ DSU_createControllerData slot0_server 1 false
     = [x01; x00; x00; x00; x00; x00; x00; x00; x00; x00; x00; x00]
  /\ exists (frame : Buffer) (hd : DSUHeader),
       sent (UDP_DefaultHandler slot0_server query_slot1_info) = [frame]
       /\ snd (DSU_parseMessage frame)
          = inr {| header := hd; messageType := ConnectedControllers;
                   message := [x01; x02; x02; x01; x11; x22; x33; x44;
                               x00; x00; x05; x00] |}.
Proof.
  split; [reflexivity|]. split; [reflexivity|]. split; [reflexivity|].
  eexists. eexists. split.
  - vm_compute. reflexivity.
  - vm_compute. reflexivity.
Qed.

(** The end-to-end example of the specification, where the requested slot
    indices 0 and 1 coincide with the loop counter: two frames. *)
Example connected_controllers_query_slots01 :
  exists (f0 f1 : Buffer) (h0 h1 : DSUHeader),
    sent (UDP_DefaultHandler slot0_server query_slots01_info) = [f0; f1]
    /\ snd (DSU_parseMessage f0)
       = inr {| header := h0; messageType := ConnectedControllers;
                message := DSU_createControllerData slot0_server 0 true |}
    /\ snd (DSU_parseMessage f1)
       = inr {| header := h1; messageType := ConnectedControllers;
                message := DSU_createControllerData slot0_server 1 false |}.
Proof.
  do 4 eexists. split; [|split].
  - vm_compute. reflexivity.
  - vm_compute. reflexivity.
  - vm_compute. reflexivity.
Qed.

(** A query for five slots is answered by four frames and a caught error. *)
Example connected_controllers_query_five_slots :
  length (sent (UDP_DefaultHandler slot0_server query_five_slots_info))
  = 4%nat
  /\ caught (UDP_DefaultHandler slot0_server query_five_slots_info)
     = Some TypeError.
Proof. split; vm_compute; reflexivity. Qed.

(** The end-to-end examples of the specification for controller-data
    queries. *)
Example controller_data_query_slot2 :
  exists (frame payload : Buffer) (hd : DSUHeader),
    DSU_state2buffer fresh_server 2 None = inr payload
    /\ sent (UDP_DefaultHandler fresh_server query_slot2_data) = [frame]
    /\ snd (DSU_parseMessage frame)
       = inr {| header := hd; messageType := ControllerData;
                message := payload |}.
Proof.
  do 3 eexists. split; [|split].
  - vm_compute. reflexivity.
  - vm_compute. reflexivity.
  - vm_compute. reflexivity.
Qed.

Example controller_data_query_mode9 :
  sent (UDP_DefaultHandler fresh_server query_mode9_data) = []
  /\ caught (UDP_DefaultHandler fresh_server query_mode9_data) = None.
Proof. split; vm_compute; reflexivity. Qed.

(** ** Sanity checks of the runtime model *)

Example crc_check_value :
  crc.buf (list_byte_of_string "123456789") 0 = 0xCBF43926 - 2 ^ 32.
Proof. vm_compute. reflexivity. Qed.

Example float2buffer_one :
  float2buffer (S754_finite false 1 0) = [x00; x00; x80; x3f].
Proof. vm_compute. reflexivity. Qed.

Example float2buffer_minus_half :
  float2buffer (S754_finite true 1 (-1)) = [x00; x00; x00; xbf].
Proof. vm_compute. reflexivity. Qed.

Example number2buffer_negative : DSU_number2buffer (-1) 2 = [xff; xff].
Proof. reflexivity. Qed.

(** * Further properties of the codec *)

(** ** Little-endian integers, continued *)










(** ** CRC-32: injectivity *)

Lemma lxor_u32 (a b : Z) :
  0 <= a < 2 ^ 32 -> 0 <= b < 2 ^ 32 -> 0 <= Z.lxor a b < 2 ^ 32.
Proof.
  intros Ha Hb.
  assert (0 <= Z.lxor a b) as Hn by (apply Z.lxor_nonneg; lia).
  apply (Z.bounded_iff_bits_nonneg' 32); [lia | exact Hn |].
  intros l Hl. rewrite Z.lxor_spec.
  rewrite (proj1 (Z.bounded_iff_bits_nonneg' 32 a ltac:(lia) ltac:(lia)) Ha l Hl).
  rewrite (proj1 (Z.bounded_iff_bits_nonneg' 32 b ltac:(lia) ltac:(lia)) Hb l Hl).
  reflexivity.
Qed.

Lemma lxor_cancel_r (a b c : Z) : Z.lxor a c = Z.lxor b c -> a = b.
Proof.
  intros H. apply (f_equal (fun z => Z.lxor z c)) in H.
  rewrite !Z.lxor_assoc, Z.lxor_nilpotent, !Z.lxor_0_r in H. exact H.
Qed.

Lemma lxor_cancel_l (a b c : Z) : Z.lxor c a = Z.lxor c b -> a = b.
Proof. rewrite !(Z.lxor_comm c). apply lxor_cancel_r. Qed.

Lemma shift1_u32 (c : Z) : 0 <= c < 2 ^ 32 -> 0 <= crc.shift1 c < 2 ^ 32.
Proof.
  intros Hc. unfold crc.shift1.
  assert (0 <= Z.shiftr c 1 < 2 ^ 32) as Hq.
  { rewrite Z.shiftr_div_pow2 by lia. change (2 ^ 1) with 2.
    pose proof (Z.div_pos c 2 ltac:(lia) ltac:(lia)).
    assert (c / 2 < 2 ^ 31) by (apply Z.div_lt_upper_bound; lia). lia. }
  destruct (Z.testbit c 0); [|exact Hq].
  apply lxor_u32; [exact Hq|]. unfold crc.polynomial. lia.
Qed.

Lemma shift1_bit31 (c : Z) :
  0 <= c < 2 ^ 32 -> Z.testbit (crc.shift1 c) 31 = Z.testbit c 0.
Proof.
  intros Hc. unfold crc.shift1.
  assert (Z.testbit (Z.shiftr c 1) 31 = false) as Hq.
  { rewrite Z.shiftr_spec by lia.
    apply (proj1 (Z.bounded_iff_bits_nonneg' 32 c ltac:(lia) ltac:(lia)) Hc).
    lia. }
  destruct (Z.testbit c 0).
  - rewrite Z.lxor_spec, Hq. reflexivity.
  - exact Hq.
Qed.

Lemma shift1_inj (c d : Z) :
  0 <= c < 2 ^ 32 -> 0 <= d < 2 ^ 32 -> crc.shift1 c = crc.shift1 d -> c = d.
Proof.
  intros Hc Hd H.
  assert (Z.testbit c 0 = Z.testbit d 0) as Hb
      by (rewrite <- !shift1_bit31, H by assumption; reflexivity).
  assert (Z.shiftr c 1 = Z.shiftr d 1) as Hq.
  { unfold crc.shift1 in H. rewrite <- Hb in H.
    destruct (Z.testbit c 0); [apply lxor_cancel_r in H|]; exact H. }
  rewrite !Z.shiftr_div_pow2 in Hq by lia. change (2 ^ 1) with 2 in Hq.
  apply (f_equal Z.b2z) in Hb. rewrite !Z.bit0_mod in Hb.
  rewrite (Z.div_mod c 2), (Z.div_mod d 2) by lia. lia.
Qed.

Lemma iter_shift1_u32 (n : nat) (c : Z) :
  0 <= c < 2 ^ 32 -> 0 <= Nat.iter n crc.shift1 c < 2 ^ 32.
Proof.
  intros Hc. induction n as [|n IH]; [exact Hc|].
  change (Nat.iter (S n) crc.shift1 c)
    with (crc.shift1 (Nat.iter n crc.shift1 c)).
  apply shift1_u32. exact IH.
Qed.

Lemma iter_shift1_inj (n : nat) (c d : Z) :
  0 <= c < 2 ^ 32 -> 0 <= d < 2 ^ 32 ->
  Nat.iter n crc.shift1 c = Nat.iter n crc.shift1 d -> c = d.
Proof.
  intros Hc Hd. induction n as [|n IH]; [auto|].
  change (Nat.iter (S n) crc.shift1 c)
    with (crc.shift1 (Nat.iter n crc.shift1 c)).
  change (Nat.iter (S n) crc.shift1 d)
    with (crc.shift1 (Nat.iter n crc.shift1 d)).
  intros H. apply IH.
  apply shift1_inj; [apply iter_shift1_u32, Hc | apply iter_shift1_u32, Hd | exact H].
Qed.

Lemma byte2Z_u32 (b : byte) : 0 <= Node.byte2Z b < 2 ^ 32.
Proof. pose proof (byte2Z_range b). lia. Qed.

Lemma update_u32 (c : Z) (b : byte) :
  0 <= c < 2 ^ 32 -> 0 <= crc.update c b < 2 ^ 32.
Proof.
  intros Hc. unfold crc.update.
  apply iter_shift1_u32, lxor_u32; [exact Hc | apply byte2Z_u32].
Qed.

Lemma update_inj_state (c d : Z) (b : byte) :
  0 <= c < 2 ^ 32 -> 0 <= d < 2 ^ 32 ->
  crc.update c b = crc.update d b -> c = d.
Proof.
  intros Hc Hd H. unfold crc.update in H.
  apply iter_shift1_inj in H; auto using lxor_u32, byte2Z_u32.
  eapply lxor_cancel_r. exact H.
Qed.

Lemma update_inj_byte (c : Z) (x y : byte) :
  0 <= c < 2 ^ 32 -> crc.update c x = crc.update c y -> x = y.
Proof.
  intros Hc H. unfold crc.update in H.
  apply iter_shift1_inj in H; auto using lxor_u32, byte2Z_u32.
  apply byte2Z_inj. eapply lxor_cancel_l. exact H.
Qed.

Lemma fold_update_u32 (l : Buffer) (c : Z) :
  0 <= c < 2 ^ 32 -> 0 <= fold_left crc.update l c < 2 ^ 32.
Proof.
  revert c. induction l as [|b l IH]; intros c Hc; [exact Hc|].
  cbn [fold_left]. apply IH, update_u32, Hc.
Qed.

Lemma fold_update_inj (l : Buffer) (c d : Z) :
  0 <= c < 2 ^ 32 -> 0 <= d < 2 ^ 32 ->
  fold_left crc.update l c = fold_left crc.update l d -> c = d.
Proof.
  revert c d. induction l as [|b l IH]; intros c d Hc Hd H; [exact H|].
  cbn [fold_left] in H. apply IH in H; auto using update_u32.
  eapply update_inj_state; eauto.
Qed.

Lemma ToInt32_inj (u v : Z) :
  0 <= u < 2 ^ 32 -> 0 <= v < 2 ^ 32 -> crc.ToInt32 u = crc.ToInt32 v -> u = v.
Proof.
  intros Hu Hv. unfold crc.ToInt32.
  rewrite !Z.mod_small by assumption.
  destruct (Z.ltb_spec u (2 ^ 31)), (Z.ltb_spec v (2 ^ 31)); lia.
Qed.

(** Changing one byte of the data changes the CRC-32. *)
Lemma crc_buf_one_byte (a b : Buffer) (x y : byte) (seed : Z) :
  crc.buf (a ++ x :: b) seed = crc.buf (a ++ y :: b) seed -> x = y.
Proof.
  unfold crc.buf. intros H.
  assert (0 <= Z.lxor (seed mod 2 ^ 32) 4294967295 < 2 ^ 32) as HC.
  { apply lxor_u32; [apply Z.mod_pos_bound|]; lia. }
  set (C := Z.lxor (seed mod 2 ^ 32) 4294967295) in *.
  apply ToInt32_inj in H;
    try (apply lxor_u32; [apply fold_update_u32; exact HC | lia]).
  apply lxor_cancel_r in H.
  rewrite !fold_left_app in H. cbn [fold_left] in H.
  apply fold_update_inj in H;
    try (apply update_u32, fold_update_u32; exact HC).
  eapply update_inj_byte; [|exact H]. apply fold_update_u32. exact HC.
Qed.

Lemma parseMessage_validation_aux (msg : Buffer) :
  (Some (trailing_bytes msg) <> declared_length msg ->
   snd (DSU_parseMessage msg) = inl PacketLengthMismatch)
  /\ (Some (trailing_bytes msg) = declared_length msg ->
      declared_checksum msg <> Node.uint32le (spec_checksum msg) ->
      exists e a, snd (DSU_parseMessage msg) = inl (CRC32Mismatch e a)).
Proof.
  destruct (DSU_parseMessage_cases msg)
    as [(Hlen & H) | [(Hlen & Hcrc & H) | (Hlen & Hcrc & _)]].
  - split; [intros _; exact H | intros Heq; contradiction].
  - split; [intros Hne; contradiction | intros _ _; exact H].
  - split; [intros Hne; contradiction | intros _ Hne; contradiction].
Qed.

Lemma rem_ToUint8 (n : Z) : Node.ToUint8 (Z.rem n 256) = Node.ToUint8 n.
Proof.
  apply byte2Z_inj. rewrite !byte2Z_ToUint8. apply rem_mod_256.
Qed.

(** ** Checksum, continued *)

Lemma spec_checksum_zeroed_ext (msg msg' : Buffer) :
  length msg = length msg' ->
  (forall i : nat, ~ (8 <= i < 12)%nat -> msg !! i = msg' !! i) ->
  spec_checksum_zeroed msg = spec_checksum_zeroed msg'.
Proof.
  intros Hlen Hout. apply list_eq. intros i.
  rewrite !lookup_spec_checksum_zeroed. case_bool_decide as Hi.
  - destruct (msg !! i) eqn:E, (msg' !! i) eqn:E'; try reflexivity.
    + apply lookup_lt_Some in E. apply lookup_ge_None in E'. lia.
    + apply lookup_ge_None in E. apply lookup_lt_Some in E'. lia.
  - apply Hout. exact Hi.
Qed.

Lemma spec_checksum_zeroed_idemp (msg : Buffer) :
  spec_checksum_zeroed (spec_checksum_zeroed msg) = spec_checksum_zeroed msg.
Proof.
  apply spec_checksum_zeroed_ext.
  - apply length_spec_checksum_zeroed.
  - intros i Hi. rewrite lookup_spec_checksum_zeroed.
    rewrite bool_decide_eq_false_2 by exact Hi. reflexivity.
Qed.

(** X4. The value of [DSU_calcCRC32] does not depend on what bytes 8 to 11
    hold: two buffers of the same length that agree everywhere else get the
    same checksum text and are left in the same state; in particular
    applying it again to the buffer it left behind gives the same result. *)
Theorem DSU_calcCRC32_ignores_checksum_field (msg msg' : Buffer) :
  length msg = length msg' ->
  (forall i : nat, ~ (8 <= i < 12)%nat -> msg !! i = msg' !! i) ->
  DSU_calcCRC32 msg = DSU_calcCRC32 msg'
  /\ DSU_calcCRC32 (fst (DSU_calcCRC32 msg)) = DSU_calcCRC32 msg.
Proof.
  intros Hlen Hout. rewrite !DSU_calcCRC32_eq. cbn [fst].
  unfold spec_checksum.
  rewrite spec_checksum_zeroed_idemp.
  rewrite (spec_checksum_zeroed_ext msg msg' Hlen Hout).
  split; reflexivity.
Qed.

Lemma DSU_calcCRC32_ignores_checksum_field_witness :
  DSU_calcCRC32 query_slot2_data
  = DSU_calcCRC32 (<[9%nat := xff]> query_slot2_data).
Proof.
  apply (DSU_calcCRC32_ignores_checksum_field
           query_slot2_data (<[9%nat := xff]> query_slot2_data)).
  - rewrite length_insert. reflexivity.
  - intros i Hi. rewrite list_lookup_insert_ne by lia. reflexivity.
Defined.

Lemma uint32le_inj (u v : Z) :
  0 <= u < 2 ^ 32 -> 0 <= v < 2 ^ 32 ->
  Node.uint32le u = Node.uint32le v -> u = v.
Proof.
  intros Hu Hv H. apply (f_equal DSU_littleEndian2number) in H.
  rewrite !uint32le_number2buffer, !littleEndian2number_number2buffer in H.
  rewrite !Z.mod_small in H by (change (256 ^ Z.of_nat 4) with (2 ^ 32); lia).
  exact H.
Qed.

Lemma spec_checksum_one_byte (msg : Buffer) (i : nat) (x y : byte) :
  ~ (8 <= i < 12)%nat -> msg !! i = Some x -> x <> y ->
  spec_checksum (<[i := y]> msg) <> spec_checksum msg.
Proof.
  intros Hi Hx Hxy Heq. apply Hxy. symmetry.
  assert (spec_checksum_zeroed msg !! i = Some x) as Hzx.
  { rewrite lookup_spec_checksum_zeroed, bool_decide_eq_false_2 by exact Hi.
    exact Hx. }
  assert (spec_checksum_zeroed (<[i := y]> msg)
          = <[i := y]> (spec_checksum_zeroed msg)) as Hz.
  { apply list_eq. intros j. rewrite lookup_spec_checksum_zeroed.
    destruct (decide (j = i)) as [->|Hj].
    - rewrite bool_decide_eq_false_2 by exact Hi.
      apply lookup_lt_Some in Hx. apply lookup_lt_Some in Hzx.
      rewrite !list_lookup_insert_eq by assumption. reflexivity.
    - rewrite !list_lookup_insert_ne by congruence.
      rewrite lookup_spec_checksum_zeroed. reflexivity. }
  unfold spec_checksum in Heq. rewrite Hz in Heq.
  pose proof (crc_buf_range (<[i := y]> (spec_checksum_zeroed msg)) 0).
  pose proof (crc_buf_range (spec_checksum_zeroed msg) 0).
  assert (crc.buf (<[i := y]> (spec_checksum_zeroed msg)) 0
          = crc.buf (spec_checksum_zeroed msg) 0) as Hc.
  { destruct (Z.ltb_spec (crc.buf (<[i := y]> (spec_checksum_zeroed msg)) 0) 0),
      (Z.ltb_spec (crc.buf (spec_checksum_zeroed msg) 0) 0); lia. }
  rewrite insert_take_drop in Hc by (apply lookup_lt_Some in Hzx; exact Hzx).
  rewrite <- (take_drop_middle _ _ _ Hzx) in Hc at 3.
  apply crc_buf_one_byte in Hc. exact Hc.
Qed.

Lemma parseMessage_one_byte (msg : Buffer) (p : ParsedMessage)
    (i : nat) (x y : byte) :
  snd (DSU_parseMessage msg) = inr p ->
  msg !! i = Some x -> x <> y ->
  if bool_decide (i = 6 \/ i = 7)%nat
  then snd (DSU_parseMessage (<[i := y]> msg)) = inl PacketLengthMismatch
  else exists e a,
      snd (DSU_parseMessage (<[i := y]> msg)) = inl (CRC32Mismatch e a).
Proof.
  intros Hp Hx Hxy.
  destruct (DSU_parseMessage_cases msg)
    as [(_ & H) | [(_ & _ & e & a & H) | (Hlen & Hcrc & _)]];
    try (rewrite H in Hp; discriminate Hp).
  clear Hp. pose proof (lookup_lt_Some _ _ _ Hx) as Hi.
  assert (trailing_bytes (<[i := y]> msg) = trailing_bytes msg) as Htr
      by (unfold trailing_bytes; rewrite length_insert; reflexivity).
  case_bool_decide as H67.
  - apply (proj1 (parseMessage_validation_aux (<[i := y]> msg))).
    rewrite Htr, Hlen. unfold declared_length, Node.elem. intros Heq.
    apply Hxy. apply byte2Z_inj.
    pose proof (byte2Z_range x). pose proof (byte2Z_range y).
    destruct H67 as [-> | ->].
    + rewrite list_lookup_insert_eq, list_lookup_insert_ne, Hx in Heq by lia.
      unfold declared_length, Node.elem in Hlen. rewrite Hx in Hlen.
      destruct (msg !! 7%nat) as [b7|]; cbn in Heq, Hlen;
        [|discriminate Hlen].
      injection Heq as Heq. lia.
    + rewrite list_lookup_insert_eq, list_lookup_insert_ne, Hx in Heq by lia.
      unfold declared_length, Node.elem in Hlen. rewrite Hx in Hlen.
      destruct (msg !! 6%nat) as [b6|]; cbn in Heq, Hlen;
        [|discriminate Hlen].
      injection Heq as Heq. lia.
  - apply (proj2 (parseMessage_validation_aux (<[i := y]> msg))).
    + rewrite Htr, Hlen. unfold declared_length, Node.elem.
      rewrite !list_lookup_insert_ne by lia. reflexivity.
    + destruct (decide (8 <= i < 12)%nat) as [Hin|Hout].
      * replace (spec_checksum (<[i := y]> msg)) with (spec_checksum msg).
        -- rewrite <- Hcrc. intros Heq. apply Hxy.
           apply (f_equal (fun l => l !! (i - 8)%nat)) in Heq.
           unfold declared_checksum, Node.slice in Heq.
           rewrite !lookup_take_lt, !lookup_drop in Heq by lia.
           replace (8 + (i - 8))%nat with i in Heq by lia.
           rewrite list_lookup_insert_eq, Hx in Heq by exact Hi.
           congruence.
        -- unfold spec_checksum.
           rewrite (spec_checksum_zeroed_ext msg (<[i := y]> msg));
             [reflexivity | rewrite length_insert; reflexivity |].
           intros j Hj. rewrite list_lookup_insert_ne by lia. reflexivity.
      * replace (declared_checksum (<[i := y]> msg))
          with (declared_checksum msg).
        -- rewrite Hcrc. intros Heq. apply uint32le_inj in Heq;
             try apply spec_checksum_range.
           exact (spec_checksum_one_byte msg i x y Hout Hx Hxy (eq_sym Heq)).
        -- unfold declared_checksum, Node.slice. apply list_eq. intros j.
           destruct (decide (j < 4)%nat).
           ++ rewrite !lookup_take_lt, !lookup_drop by lia.
              rewrite list_lookup_insert_ne by lia. reflexivity.
           ++ rewrite !lookup_take_ge by lia. reflexivity.
Qed.

(** X5. A valid datagram with any single byte replaced by a different value
    is rejected: with the length error when the byte is one of the two
    length bytes, with the checksum error otherwise. *)
Theorem parseMessage_detects_one_byte (msg : Buffer) (p : ParsedMessage)
    (i : nat) (x y : byte) :
  snd (DSU_parseMessage msg) = inr p ->
  msg !! i = Some x -> x <> y ->
  if bool_decide (i = 6 \/ i = 7)%nat
  then snd (DSU_parseMessage (<[i := y]> msg)) = inl PacketLengthMismatch
  else exists e a,
      snd (DSU_parseMessage (<[i := y]> msg)) = inl (CRC32Mismatch e a).
Proof. apply parseMessage_one_byte. Qed.

Lemma parseMessage_detects_one_byte_witness :
  exists e a,
    snd (DSU_parseMessage (<[21%nat := x03]> query_slot2_data))
    = inl (CRC32Mismatch e a).
Proof.
  destruct (snd (DSU_parseMessage query_slot2_data)) as [e|p] eqn:Hp.
  - vm_compute in Hp. discriminate Hp.
  - pose proof (parseMessage_detects_one_byte
                  query_slot2_data p 21 x02 x03 Hp eq_refl) as H.
    rewrite bool_decide_eq_false_2 in H by lia.
    apply H. discriminate.
Defined.

Lemma parseMessage_again (msg : Buffer) (p : ParsedMessage) :
  snd (DSU_parseMessage msg) = inr p ->
  declared_checksum msg <> [x00; x00; x00; x00] ->
  snd (DSU_parseMessage (fst (DSU_parseMessage msg)))
  = inl (CRC32Mismatch "00000000" (CRC32 (header p))).
Proof.
  intros Hp Hnz.
  destruct (DSU_parseMessage_eq msg) as (hd & Hhd & Hfirst).
  destruct (DSU_parseMessage_cases msg)
    as [(_ & H) | [(_ & _ & e & a & H) | (Hlen & Hcrc & hd' & Hhd' & H)]];
    try (rewrite H in Hp; discriminate Hp).
  rewrite H in Hp. injection Hp as <-. cbn [header].
  rewrite Hfirst. cbn [fst]. clear Hfirst H.
  destruct (DSU_parseMessage_eq (spec_checksum_zeroed msg))
    as (hd2 & _ & ->). cbn [snd].
  assert (trailing_bytes (spec_checksum_zeroed msg) = trailing_bytes msg)
    as -> by (unfold trailing_bytes; rewrite length_spec_checksum_zeroed;
              reflexivity).
  assert (declared_length (spec_checksum_zeroed msg) = declared_length msg)
    as ->.
  { unfold declared_length, Node.elem.
    rewrite !lookup_spec_checksum_zeroed.
    rewrite !bool_decide_eq_false_2 by lia. reflexivity. }
  rewrite bool_decide_eq_true_2 by exact Hlen. cbn [negb].
  assert (spec_checksum (spec_checksum_zeroed msg) = spec_checksum msg) as ->
      by (unfold spec_checksum; rewrite spec_checksum_zeroed_idemp;
          reflexivity).
  rewrite declared_checksum_zeroed, Hcrc. cbn [length Node.uint32le replicate].
  rewrite Hhd', Hcrc.
  change (Node.toString_hex [x00; x00; x00; x00]) with "00000000"%string.
  destruct (String.eqb_spec "00000000"
              (Node.toString_hex (Node.uint32le (spec_checksum msg))))
    as [Heq|Hne]; [|reflexivity].
  exfalso. apply Hnz. rewrite Hcrc.
  apply toString_hex_inj. symmetry. exact Heq.
Qed.

(** X6. The buffer that a successful parse leaves behind does not parse
    again: unless the declared checksum was zero to begin with, a second
    [DSU_parseMessage] on the same buffer fails with the checksum error,
    the declared checksum now reading "00000000". *)
Theorem parseMessage_twice (msg : Buffer) (p : ParsedMessage) :
  snd (DSU_parseMessage msg) = inr p ->
  declared_checksum msg <> [x00; x00; x00; x00] ->
  snd (DSU_parseMessage (fst (DSU_parseMessage msg)))
  = inl (CRC32Mismatch "00000000" (CRC32 (header p))).
Proof. apply parseMessage_again. Qed.

Lemma parseMessage_twice_witness :
  exists actual : string,
    snd (DSU_parseMessage (fst (DSU_parseMessage query_slot2_data)))
    = inl (CRC32Mismatch "00000000" actual).
Proof.
  destruct (snd (DSU_parseMessage query_slot2_data)) as [e|p] eqn:Hp.
  - vm_compute in Hp. discriminate Hp.
  - exists (CRC32 (header p)).
    apply (parseMessage_twice query_slot2_data p Hp).
    vm_compute. discriminate.
Defined.

(** ** Frame codec, continued *)

(** X7. Every frame built by [DSU_generateMessage] has 20 bytes more than
    its body and, when the body has at most 65531 bytes, is parsed into a
    header that reads: tag "DSUS", version 1001, a length of the body plus
    four, the checksum text of the frame and the sender identifier of the
    server read as a little-endian number. *)
Theorem generateMessage_header_roundtrip (this : DSUServer)
    (t : MessageTypes) (data : Buffer) :
  length (DATA_CONTROLLERID this) = 4%nat ->
  Z.of_nat (length data) <= 65531 ->
  exists (frame : Buffer) (p : ParsedMessage),
    DSU_generateMessage this t data = inr frame
    /\ length frame = (20 + length data)%nat
    /\ snd (DSU_parseMessage frame) = inr p
    /\ dsuType (header p) = "DSUS"%string
    /\ version (header p) = Some 1001
    /\ packetLength (header p) = Some (4 + Z.of_nat (length data))
    /\ senderID (header p)
       = Some (DSU_littleEndian2number (DATA_CONTROLLERID this))
    /\ snd (DSU_calcCRC32 frame) = inr (CRC32 (header p)).
Proof.
  intros Hid Hlen.
  destruct (parseMessage_generateMessage this t data)
    as (frame & hd & Hgen & Hparse).
  rewrite bool_decide_eq_true_2 in Hparse by exact Hlen.
  exists frame,
    {| header := hd;
       messageType := messageType_of (DSU_messageType2buffer t);
       message := data |}.
  split; [exact Hgen|]. cbn [header].
  rewrite DSU_generateMessage_eq in Hgen. injection Hgen as Hframe.
  rewrite (header_senderID_exact this Hid) in Hframe.
  pose proof (length_messageType2buffer t) as Hcode.
  destruct (DATA_CONTROLLERID this) as [|i0 [|i1 [|i2 [|i3 [|? ?]]]]];
    try discriminate Hid.
  destruct (DSU_messageType2buffer t) as [|t0 [|t1 [|t2 [|t3 [|? ?]]]]];
    try discriminate Hcode.
  unfold frame_bytes in Hframe. rewrite !number2buffer_2 in Hframe.
  cbn [Node.uint32le app] in Hframe.
  split; [subst frame; cbn [length]; lia|].
  split; [exact Hparse|].
  pose proof Hparse as Hp.
  clear Hparse. unfold DSU_parseMessage in Hp.
  rewrite DSU_calcCRC32_eq in Hp. cbn [snd bind] in Hp.
  repeat match type of Hp with
         | (if ?c then _ else _) = _ =>
             destruct c; [discriminate Hp|]
         end.
  injection Hp as Hhd _. subst hd frame.
  rewrite DSU_calcCRC32_eq. cbn [snd dsuType version packetLength senderID CRC32].
  unfold Node.slice, Node.elem.
  cbn [take drop Nat.sub lookup list_lookup fmap option_fmap option_map
       Node.add Node.mul Node.toString].
  rewrite !byte2Z_ToUint8, !rem_mod_256.
  repeat split.
  - f_equal. change (256 * 256) with 65536.
    pose proof (Z.rem_mul_r (4 + Z.of_nat (length data)) 256 256
                  ltac:(lia) ltac:(lia)) as Hm.
    change (256 * 256) with 65536 in Hm.
    rewrite Z.mod_small in Hm by lia. lia.
  - f_equal. unfold DSU_littleEndian2number. cbn. ring.
Qed.

Lemma generateMessage_header_roundtrip_witness :
  exists (frame : Buffer) (p : ParsedMessage),
    DSU_generateMessage fresh_server ControllerData [x01; x02] = inr frame
    /\ snd (DSU_parseMessage frame) = inr p
    /\ version (header p) = Some 1001
    /\ senderID (header p) = Some 0x44332211.
Proof.
  destruct (generateMessage_header_roundtrip
              fresh_server ControllerData [x01; x02])
    as (frame & p & Hgen & _ & Hp & _ & Hv & _ & Hs & _).
  - reflexivity.
  - simpl. lia.
  - exists frame, p. repeat split; assumption.
Defined.

(** ** Message type registry, continued *)

(** X8. Every wire code has four bytes and different kinds have different
    wire codes. *)
Theorem messageType2buffer_injective (t t' : MessageTypes) :
  length (DSU_messageType2buffer t) = 4%nat
  /\ (t <> t' -> DSU_messageType2buffer t <> DSU_messageType2buffer t').
Proof.
  split; [apply length_messageType2buffer|].
  destruct t, t'; intros Hne H; try (apply Hne; reflexivity);
    vm_compute in H; discriminate H.
Qed.

Lemma messageType2buffer_injective_witness :
  DSU_messageType2buffer ControllerMotor <> DSU_messageType2buffer Rumble.
Proof.
  apply (proj2 (messageType2buffer_injective ControllerMotor Rumble)).
  discriminate.
Defined.

Lemma messageTypeHex_inv (code : Buffer) (n : positive) :
  (length code <= 4)%nat ->
  messageTypeHex code = HexString.Raw.of_pos n "" ->
  (n = 0x100000 \/ n = 0x100001 \/ n = 0x100002
   \/ n = 0x110001 \/ n = 0x110002)%positive ->
  code = Node.uint32le (Z.pos n).
Proof.
  intros Hlen Hn Hcase. unfold messageTypeHex in Hn.
  apply Number_toString16_inj in Hn;
    [|destruct Hcase as [-> | [-> | [-> | [-> | ->]]]]; eexists; reflexivity].
  unfold Node.elem in Hn.
  destruct code as [|c0 [|c1 [|c2 [|c3 [|? ?]]]]];
    cbn in Hn; try discriminate Hn; [|cbn in Hlen; lia].
  injection Hn as Hn.
  pose proof (byte2Z_range c0). pose proof (byte2Z_range c1).
  pose proof (byte2Z_range c2). pose proof (byte2Z_range c3).
  rewrite <- (ToUint8_byte2Z c0), <- (ToUint8_byte2Z c1),
    <- (ToUint8_byte2Z c2), <- (ToUint8_byte2Z c3).
  destruct Hcase as [-> | [-> | [-> | [-> | ->]]]];
    match type of Hn with
    | _ = Z.pos ?N =>
        let v0 := eval vm_compute in (Z.pos N mod 256) in
        let v1 := eval vm_compute in ((Z.pos N / 256) mod 256) in
        let v2 := eval vm_compute in ((Z.pos N / 65536) mod 256) in
        let v3 := eval vm_compute in (Z.pos N / 16777216) in
        assert (Node.byte2Z c0 = v0 /\ Node.byte2Z c1 = v1
                /\ Node.byte2Z c2 = v2 /\ Node.byte2Z c3 = v3)
          as (-> & -> & -> & ->) by lia
    end; reflexivity.
Qed.

(** X9. The code-to-kind table in full: a code of at most four bytes is
    recognized exactly when it is one of five byte sequences, and every
    other code, shorter ones included, is [Unknown]. *)
Theorem messageType_of_table (code : Buffer) :
  (length code <= 4)%nat ->
  messageType_of code
  = if decide (code = [x00; x00; x10; x00]) then ProtocolVersionInformation
    else if decide (code = [x01; x00; x10; x00]) then ConnectedControllers
    else if decide (code = [x02; x00; x10; x00]) then ControllerData
    else if decide (code = [x01; x00; x11; x00]) then ControllerMotor
    else if decide (code = [x02; x00; x11; x00]) then Rumble
    else Unknown.
Proof.
  intros Hlen.
  repeat (case_decide; [subst code; reflexivity|]).
  unfold messageType_of.
  destruct (table_lookup messageType_table (messageTypeHex code))
    as [t|] eqn:E; [|reflexivity].
  exfalso. apply table_lookup_key in E.
  assert (exists n : positive,
             messageTypeHex code = HexString.Raw.of_pos n ""
             /\ (n = 0x100000 \/ n = 0x100001 \/ n = 0x100002
                 \/ n = 0x110001 \/ n = 0x110002)%positive)
    as (n & Hn & Hcase).
  { destruct t; rewrite E;
      [exists 0x100000%positive | exists 0x100001%positive
       | exists 0x100002%positive | exists 0x110001%positive
       | exists 0x110002%positive | ]; try (split; [reflexivity|tauto]).
    unfold messageTypeHex in E.
    destruct (Node.add _ _) as [[|q|q]|]; cbn in E; try discriminate E.
    apply (f_equal (fun s => HexString.Raw.to_N s 0%N)) in E.
    rewrite HexString.Raw.to_N_of_pos in E. discriminate E. }
  pose proof (messageTypeHex_inv code n Hlen Hn Hcase) as Hcode.
  destruct Hcase as [-> | [-> | [-> | [-> | ->]]]];
    vm_compute in Hcode; congruence.
Qed.

Lemma messageType_of_table_witness :
  messageType_of [x01; x00; x11; x00] = ControllerMotor
  /\ messageType_of [x01; x00; x11] = Unknown.
Proof.
  split.
  - apply (messageType_of_table [x01; x00; x11; x00]). simpl. lia.
  - apply (messageType_of_table [x01; x00; x11]). simpl. lia.
Defined.

(** ** Request dispatcher, continued *)

Lemma handler_after (this : DSUServer) (msg : Buffer) :
  server_after (UDP_DefaultHandler this msg) = this
  /\ msg_after (UDP_DefaultHandler this msg) = spec_checksum_zeroed msg.
Proof.
  unfold UDP_DefaultHandler.
  destruct (DSU_parseMessage_eq msg) as (hd & _ & ->).
  repeat case_match; split; reflexivity.
Qed.

Lemma handler_parse_error (this : DSUServer) (msg : Buffer) (e : Error) :
  snd (DSU_parseMessage msg) = inl e ->
  sent (UDP_DefaultHandler this msg) = []
  /\ caught (UDP_DefaultHandler this msg) = Some e.
Proof.
  intros Hp. unfold UDP_DefaultHandler.
  destruct (DSU_parseMessage msg) as [m r]. cbn [snd] in Hp. subst r.
  split; reflexivity.
Qed.

Lemma handler_other_kind (this : DSUServer) (msg : Buffer)
    (p : ParsedMessage) :
  snd (DSU_parseMessage msg) = inr p ->
  messageType p <> ConnectedControllers ->
  messageType p <> ControllerData ->
  sent (UDP_DefaultHandler this msg) = []
  /\ caught (UDP_DefaultHandler this msg) = None.
Proof.
  intros Hp Hcc Hcd. unfold UDP_DefaultHandler.
  destruct (DSU_parseMessage msg) as [m r]. cbn [snd] in Hp. subst r.
  destruct (messageType p); try (split; reflexivity); congruence.
Qed.

Lemma handler_ControllerData_unresolved (this : DSUServer) (msg : Buffer)
    (p : ParsedMessage) :
  snd (DSU_parseMessage msg) = inr p ->
  messageType p = ControllerData ->
  (forall index : Z, ~ resolves_to (message p) index) ->
  sent (UDP_DefaultHandler this msg) = []
  /\ caught (UDP_DefaultHandler this msg) = None.
Proof.
  intros Hp Hk Hno. unfold UDP_DefaultHandler.
  destruct (DSU_parseMessage msg) as [m r]. cbn [snd] in Hp. subst r.
  rewrite Hk. unfold resolves_to in Hno.
  case_bool_decide as H1.
  - destruct (Node.elem (message p) 1) as [index|] eqn:E;
      [exfalso; apply (Hno index); tauto | split; reflexivity].
  - case_bool_decide as H2; [|split; reflexivity].
    destruct (Node.elem (message p) 7) as [index|] eqn:E;
      [exfalso; apply (Hno index); tauto | split; reflexivity].
Qed.

Lemma resolves_to_dec (body : Buffer) :
  (exists index : Z, resolves_to body index)
  \/ (forall index : Z, ~ resolves_to body index).
Proof.
  unfold resolves_to.
  destruct (Node.elem body 0) as [m|] eqn:E0.
  - destruct (decide (m = 1)) as [->|H1].
    + destruct (Node.elem body 1) as [index|] eqn:E1.
      * left. exists index. left. split; reflexivity.
      * right. intros index [[_ H]|[H _]]; discriminate H.
    + destruct (decide (m = 2)) as [->|H2].
      * destruct (Node.elem body 7) as [index|] eqn:E7.
        -- left. exists index. right. split; reflexivity.
        -- right. intros index [[H _]|[_ H]]; discriminate H.
      * right. intros index [[H _]|[H _]]; congruence.
  - right. intros index [[H _]|[H _]]; discriminate H.
Qed.

(** A frame that the handler sends for a connected-controllers query. *)
Lemma info_frame_parses (this : DSUServer) (body : Buffer) (i : nat)
    (frame : Buffer) :
  info_frame this body i frame ->
  exists (hd : DSUHeader) (state : ControllerState),
    DATA_controllerStates this !! i = Some state
    /\ snd (DSU_parseMessage frame)
       = inr {| header := hd; messageType := ConnectedControllers;
                message :=
                  DSU_createControllerData this
                    (Node.byte2Z (Node.stored (body !! (4 + i)%nat)))
                    (connected state) |}.
Proof.
  intros (state & Hst & Hgen).
  destruct (parseMessage_generateMessage this ConnectedControllers
              (DSU_createControllerData this
                 (Node.byte2Z (Node.stored (body !! (4 + i)%nat)))
                 (connected state)))
    as (frame' & hd & Hgen' & Hparse).
  rewrite Hgen in Hgen'. injection Hgen' as <-.
  exists hd, state. split; [exact Hst|].
  rewrite Hparse, bool_decide_eq_true_2
    by (rewrite length_createControllerData; lia).
  reflexivity.
Qed.

(** X10. A datagram that fails validation is dropped: nothing is sent, the
    error ends in the handler's [catch] clause and the server object is as
    before. In particular a valid datagram with one byte altered is never
    answered. *)
Theorem handler_drops_invalid (this : DSUServer) (msg : Buffer) :
  (forall e : Error,
      snd (DSU_parseMessage msg) = inl e ->
      sent (UDP_DefaultHandler this msg) = []
      /\ caught (UDP_DefaultHandler this msg) = Some e
      /\ server_after (UDP_DefaultHandler this msg) = this)
  /\ (forall (p : ParsedMessage) (i : nat) (x y : byte),
         snd (DSU_parseMessage msg) = inr p ->
         msg !! i = Some x -> x <> y ->
         sent (UDP_DefaultHandler this (<[i := y]> msg)) = []).
Proof.
  split.
  - intros e He. destruct (handler_parse_error this msg e He) as [Hs Hc].
    repeat split; try assumption. apply handler_after.
  - intros p i x y Hp Hx Hxy.
    pose proof (parseMessage_one_byte msg p i x y Hp Hx Hxy) as H.
    destruct (bool_decide (i = 6%nat \/ i = 7%nat)).
    + apply (handler_parse_error this _ _ H).
    + destruct H as (e & a & H). apply (handler_parse_error this _ _ H).
Qed.

Lemma handler_drops_invalid_witness :
  sent (UDP_DefaultHandler fresh_server (<[21%nat := x03]> query_slot2_data))
  = [].
Proof.
  destruct (snd (DSU_parseMessage query_slot2_data)) as [e|p] eqn:Hp.
  - vm_compute in Hp. discriminate Hp.
  - apply (proj2 (handler_drops_invalid fresh_server query_slot2_data)
             p 21%nat x02 x03 Hp eq_refl).
    discriminate.
Defined.

(** X11. A valid datagram whose kind is neither connected-controllers nor
    controller-data (version information, controller motor, rumble, or
    any unrecognized code) gets no answer and raises no error. *)
Theorem handler_ignores_other_kinds (this : DSUServer) (msg : Buffer)
    (p : ParsedMessage) :
  snd (DSU_parseMessage msg) = inr p ->
  messageType p <> ConnectedControllers ->
  messageType p <> ControllerData ->
  sent (UDP_DefaultHandler this msg) = []
  /\ caught (UDP_DefaultHandler this msg) = None
  /\ server_after (UDP_DefaultHandler this msg) = this.
Proof.
  intros Hp Hcc Hcd.
  destruct (handler_other_kind this msg p Hp Hcc Hcd) as [Hs Hc].
  repeat split; try assumption. apply handler_after.
Qed.

Lemma handler_ignores_other_kinds_witness :
  sent (UDP_DefaultHandler fresh_server truncated_datagram) = []
  /\ caught (UDP_DefaultHandler fresh_server truncated_datagram) = None.
Proof.
  destruct (snd (DSU_parseMessage truncated_datagram)) as [e|p] eqn:Hp.
  - vm_compute in Hp. discriminate Hp.
  - assert (messageType p = Unknown) as Hk
        by (vm_compute in Hp; injection Hp as <-; reflexivity).
    destruct (handler_ignores_other_kinds fresh_server truncated_datagram p Hp)
      as (Hs & Hc & _); [rewrite Hk; discriminate .. | ].
    split; assumption.
Defined.

(** X12. Whatever the datagram, a server with a four-slot store sends at
    most four frames in answer to it, leaves its own state untouched, and
    every frame it sends is one that [DSU_parseMessage] accepts: a
    connected-controllers frame with a 12-byte body or a controller-data
    frame with an 80-byte body. *)
Theorem handler_sends_valid_frames (this : DSUServer) (msg : Buffer) :
  store_ok this ->
  (length (sent (UDP_DefaultHandler this msg)) <= 4)%nat
  /\ server_after (UDP_DefaultHandler this msg) = this
  /\ forall frame : Buffer,
       In frame (sent (UDP_DefaultHandler this msg)) ->
       exists (hd : DSUHeader) (t : MessageTypes) (body : Buffer),
         snd (DSU_parseMessage frame)
         = inr {| header := hd; messageType := t; message := body |}
         /\ (t = ConnectedControllers /\ length body = 12%nat
             \/ t = ControllerData /\ length body = 80%nat).
Proof.
  intros Hok. split; [|split; [apply handler_after|]].
  - destruct (snd (DSU_parseMessage msg)) as [e|p] eqn:Hp.
    { rewrite (proj1 (handler_parse_error this msg e Hp)). cbn. lia. }
    destruct (decide (messageType p = ConnectedControllers)) as [Hcc|Hcc].
    { destruct (handler_ConnectedControllers this msg p Hok Hp Hcc)
        as (frames & -> & Hlen & _). lia. }
    destruct (decide (messageType p = ControllerData)) as [Hcd|Hcd].
    + destruct (resolves_to_dec (message p)) as [(index & Hres)|Hno].
      * rewrite (handler_ControllerData this msg p index Hp Hcd Hres).
        destruct (body <- DSU_state2buffer this index None ;;
                  DSU_generateMessage this ControllerData body); cbn; lia.
      * rewrite (proj1 (handler_ControllerData_unresolved
                          this msg p Hp Hcd Hno)). cbn. lia.
    + rewrite (proj1 (handler_other_kind this msg p Hp Hcc Hcd)). cbn. lia.
  - intros frame Hin.
    destruct (snd (DSU_parseMessage msg)) as [e|p] eqn:Hp.
    { rewrite (proj1 (handler_parse_error this msg e Hp)) in Hin.
      destruct Hin. }
    destruct (decide (messageType p = ConnectedControllers)) as [Hcc|Hcc].
    { destruct (handler_ConnectedControllers this msg p Hok Hp Hcc)
        as (frames & Hs & _ & _ & Hall).
      rewrite Hs in Hin. apply list_elem_of_In in Hin.
      apply list_elem_of_lookup in Hin. destruct Hin as (i & Hi).
      destruct (info_frame_parses this (message p) i frame (Hall i frame Hi))
        as (hd & state & _ & Hparse).
      eexists hd, ConnectedControllers, _. split; [exact Hparse|].
      left. split; [reflexivity | apply length_createControllerData]. }
    destruct (decide (messageType p = ControllerData)) as [Hcd|Hcd].
    + destruct (resolves_to_dec (message p)) as [(index & Hres)|Hno].
      * rewrite (handler_ControllerData this msg p index Hp Hcd Hres) in Hin.
        rewrite state2buffer_default in Hin.
        destruct (DSU_getControllerState this index) as [state|];
          [|destruct Hin].
        destruct (length_state2buffer this index state)
          as (payload & Hpay & Hlen).
        rewrite Hpay in Hin. cbn [bind] in Hin.
        destruct (parseMessage_generateMessage this ControllerData payload)
          as (frame' & hd & Hgen & Hparse).
        rewrite Hgen in Hin. destruct Hin as [<-|[]].
        exists hd, ControllerData, payload.
        rewrite Hparse, bool_decide_eq_true_2 by lia.
        split; [reflexivity | right; split; [reflexivity | exact Hlen]].
      * rewrite (proj1 (handler_ControllerData_unresolved
                          this msg p Hp Hcd Hno)) in Hin. destruct Hin.
    + rewrite (proj1 (handler_other_kind this msg p Hp Hcc Hcd)) in Hin.
      destruct Hin.
Qed.

Lemma handler_sends_valid_frames_witness :
  (length (sent (UDP_DefaultHandler slot0_server query_five_slots_info)) <= 4)%nat.
Proof.
  apply (handler_sends_valid_frames slot0_server query_five_slots_info).
  reflexivity.
Defined.

(** X13. A valid connected-controllers query whose count [n] is at most 4
    is answered by exactly [n] frames, in order. Frame [i] carries the slot
    summary made of the slot index read at body byte [4 + i] (0 when the
    body has no such byte) and of the connection flag of store slot [i];
    no error is raised. *)
Theorem connected_controllers_query (this : DSUServer) (msg : Buffer)
    (p : ParsedMessage) :
  store_ok this ->
  snd (DSU_parseMessage msg) = inr p ->
  messageType p = ConnectedControllers ->
  DSU_littleEndian2number (Node.slice (message p) 0 4) <= 4 ->
  length (sent (UDP_DefaultHandler this msg))
  = Z.to_nat (DSU_littleEndian2number (Node.slice (message p) 0 4))
  /\ caught (UDP_DefaultHandler this msg) = None
  /\ forall (i : nat) (frame : Buffer),
       sent (UDP_DefaultHandler this msg) !! i = Some frame ->
       exists (hd : DSUHeader) (state : ControllerState),
         DATA_controllerStates this !! i = Some state
         /\ snd (DSU_parseMessage frame)
            = inr {| header := hd; messageType := ConnectedControllers;
                     message :=
                       DSU_createControllerData this
                         (Node.byte2Z
                            (Node.stored (message p !! (4 + i)%nat)))
                         (connected state) |}.
Proof.
  intros Hok Hp Hk Hn.
  destruct (handler_ConnectedControllers this msg p Hok Hp Hk)
    as (frames & -> & Hlen & -> & Hall).
  split; [lia|]. split; [rewrite bool_decide_eq_true_2 by lia; reflexivity|].
  intros i frame Hi. apply info_frame_parses, Hall, Hi.
Qed.

Lemma connected_controllers_query_witness :
  length (sent (UDP_DefaultHandler slot0_server query_slots01_info)) = 2%nat.
Proof.
  destruct (snd (DSU_parseMessage query_slots01_info)) as [e|p] eqn:Hp.
  - vm_compute in Hp. discriminate Hp.
  - assert (messageType p = ConnectedControllers
            /\ message p = [x02; x00; x00; x00; x00; x01])
      as [Hk Hm] by (vm_compute in Hp; injection Hp as <-; split; reflexivity).
    destruct (connected_controllers_query slot0_server query_slots01_info p)
      as (Hlen & _); [reflexivity | exact Hp | exact Hk | | ].
    + rewrite Hm. vm_compute. discriminate.
    + rewrite Hlen, Hm. reflexivity.
Defined.

(** X22. A datagram buffer is answered once: handing the buffer that one
    call of the handler leaves behind to the handler again, on any server,
    sends nothing and ends in the checksum error, unless the checksum
    declared by the datagram was zero. *)
Theorem handler_twice (this this' : DSUServer) (msg : Buffer)
    (p : ParsedMessage) :
  snd (DSU_parseMessage msg) = inr p ->
  declared_checksum msg <> [x00; x00; x00; x00] ->
  sent (UDP_DefaultHandler this'
          (msg_after (UDP_DefaultHandler this msg))) = []
  /\ caught (UDP_DefaultHandler this'
               (msg_after (UDP_DefaultHandler this msg)))
     = Some (CRC32Mismatch "00000000" (CRC32 (header p))).
Proof.
  intros Hp Hnz.
  pose proof (parseMessage_again msg p Hp Hnz) as H.
  rewrite (proj2 (handler_after this msg)).
  destruct (DSU_parseMessage_eq msg) as (hd & _ & Hfirst).
  rewrite Hfirst in H. cbn [fst] in H.
  apply (handler_parse_error this' _ _ H).
Qed.

Lemma handler_twice_witness :
  sent (UDP_DefaultHandler fresh_server
          (msg_after (UDP_DefaultHandler fresh_server query_slot2_data)))
  = [].
Proof.
  destruct (snd (DSU_parseMessage query_slot2_data)) as [e|p] eqn:Hp.
  - vm_compute in Hp. discriminate Hp.
  - apply (handler_twice fresh_server fresh_server query_slot2_data p Hp).
    vm_compute. discriminate.
Defined.

(** ** State payload, continued *)

Lemma float2buffer_eq (n : spec_float) :
  float2buffer n = Node.uint32le (Node.float32_bits (Node.fround n)).
Proof. reflexivity. Qed.

Lemma number2buffer_1 (n : Z) :
  DSU_number2buffer n 1 = [Node.ToUint8 (Z.rem n 256)].
Proof. reflexivity. Qed.

Ltac twelve_bytes l H :=
  destruct l as [|? [|? [|? [|? [|? [|? [|? [|? [|? [|? [|? [|? [|? ?]]]]]]]]]]]]];
  try discriminate H.

(** The payload in one piece: the first eleven bytes of the slot summary,
    then the fields in the order of the wire layout. *)
Lemma DSU_state2buffer_eq (this : DSUServer) (slot : Z)
    (state : ControllerState) :
  DSU_state2buffer this slot (Some state)
  = inr
      (take 11 (DSU_createControllerData this slot (connected state))
       ++ [if connected state then x01 else x00;
           Node.stored (DATA_CONTROLLERID this !! 0%nat);
           Node.stored (DATA_CONTROLLERID this !! 1%nat);
           Node.stored (DATA_CONTROLLERID this !! 2%nat);
           Node.ToUint8 slot]
       ++ BITMASK2BUFFER
            [BOOL2BIT (DPAD_LEFT (DPAD state));
             BOOL2BIT (DPAD_DOWN (DPAD state));
             BOOL2BIT (DPAD_RIGHT (DPAD state));
             BOOL2BIT (DPAD_UP (DPAD state));
             BOOL2BIT (KEYS_OPTIONS (KEYS state));
             BOOL2BIT (KEYS_R3 (KEYS state));
             BOOL2BIT (KEYS_L3 (KEYS state));
             BOOL2BIT (KEYS_SHARE (KEYS state))]
       ++ [x00; Node.ToUint8 (BOOL2BIT (KEYS_HOME (KEYS state))); x00]
       ++ map Node.ToUint8
            [STICK_X (LSTICK state); STICK_Y (LSTICK state);
             STICK_X (RSTICK state); STICK_Y (RSTICK state);
             ANALOG_DPAD_LEFT (ANALOG_DPAD (ANALOG state));
             ANALOG_DPAD_DOWN (ANALOG_DPAD (ANALOG state));
             ANALOG_DPAD_RIGHT (ANALOG_DPAD (ANALOG state));
             ANALOG_DPAD_UP (ANALOG_DPAD (ANALOG state));
             ANALOG_KEYS_Y (ANALOG_KEYS (ANALOG state));
             ANALOG_KEYS_B (ANALOG_KEYS (ANALOG state));
             ANALOG_KEYS_A (ANALOG_KEYS (ANALOG state));
             ANALOG_KEYS_X (ANALOG_KEYS (ANALOG state));
             ANALOG_KEYS_R1 (ANALOG_KEYS (ANALOG state));
             ANALOG_KEYS_L1 (ANALOG_KEYS (ANALOG state));
             ANALOG_KEYS_R2 (ANALOG_KEYS (ANALOG state));
             ANALOG_KEYS_L2 (ANALOG_KEYS (ANALOG state))]
       ++ replicate 12 x00
       ++ DSU_number2buffer (TIMESTAMP (MOTION state)) 8
       ++ float2buffer (ACCEL_X (ACCEL (MOTION state)))
       ++ float2buffer (ACCEL_Y (ACCEL (MOTION state)))
       ++ float2buffer (ACCEL_Z (ACCEL (MOTION state)))
       ++ float2buffer (GYRO_PITCH (GYRO (MOTION state)))
       ++ float2buffer (GYRO_YAW (GYRO (MOTION state)))
       ++ float2buffer (GYRO_ROLL (GYRO (MOTION state)))).
Proof.
  unfold DSU_state2buffer. f_equal.
  pose proof (length_createControllerData this slot (connected state)) as Hinfo.
  twelve_bytes (DSU_createControllerData this slot (connected state)) Hinfo.
  rewrite !float2buffer_eq. unfold Node.uint32le.
  unfold BITMASK2BUFFER. rewrite !number2buffer_1.
  set (ts := DSU_number2buffer (TIMESTAMP (MOTION state)) 8).
  pose proof (length_number2buffer (TIMESTAMP (MOTION state)) 8) as Hts.
  fold ts in Hts.
  destruct ts as [|? [|? [|? [|? [|? [|? [|? [|? [|? ?]]]]]]]]];
    try discriminate Hts.
  cbn [map]. rewrite !rem_ToUint8.
  reflexivity.
Qed.

Lemma BITMASK2BUFFER_bits (b0 b1 b2 b3 b4 b5 b6 b7 : bool) :
  exists mask : byte,
    BITMASK2BUFFER
      [BOOL2BIT b0; BOOL2BIT b1; BOOL2BIT b2; BOOL2BIT b3;
       BOOL2BIT b4; BOOL2BIT b5; BOOL2BIT b6; BOOL2BIT b7] = [mask]
    /\ map (Z.testbit (Node.byte2Z mask)) [0; 1; 2; 3; 4; 5; 6; 7]
       = [b0; b1; b2; b3; b4; b5; b6; b7].
Proof.
  destruct b0, b1, b2, b3, b4, b5, b6, b7; eexists; split; reflexivity.
Qed.

(** X14. The state payload always has 80 bytes. Its first eleven bytes are
    those of the slot summary, byte 11 is the connection flag (1 or 0),
    bytes 12 to 14 repeat the first three bytes of the sender identifier
    and byte 15 is the slot index; for a disconnected controller bytes 1
    to 11 are all zero. *)
Theorem state2buffer_identity (this : DSUServer) (slot : Z)
    (state : ControllerState) :
  exists payload : Buffer,
    DSU_state2buffer this slot (Some state) = inr payload
    /\ length payload = 80%nat
    /\ take 11 payload
       = take 11 (DSU_createControllerData this slot (connected state))
    /\ payload !! 0%nat = Some (Node.ToUint8 slot)
    /\ payload !! 11%nat = Some (if connected state then x01 else x00)
    /\ Node.slice payload 12 15
       = [Node.stored (DATA_CONTROLLERID this !! 0%nat);
          Node.stored (DATA_CONTROLLERID this !! 1%nat);
          Node.stored (DATA_CONTROLLERID this !! 2%nat)]
    /\ payload !! 15%nat = Some (Node.ToUint8 slot)
    /\ (connected state = false ->
        Node.slice payload 1 12 = replicate 11 x00).
Proof.
  destruct (length_state2buffer this slot state) as (payload & Hpay & Hlen).
  exists payload. split; [exact Hpay|]. split; [exact Hlen|].
  rewrite DSU_state2buffer_eq in Hpay. injection Hpay as <-.
  assert (DSU_createControllerData this slot (connected state) !! 0%nat
          = Some (Node.ToUint8 slot)) as H0.
  { unfold DSU_createControllerData, Node.copy.
    destruct (connected state); cbn [negb]; [|reflexivity].
    rewrite list_lookup_insert_ne, list_lookup_inserts_lt by lia.
    reflexivity. }
  pose proof (length_createControllerData this slot (connected state)) as Hinfo.
  destruct (connected state) eqn:Hc.
  - twelve_bytes (DSU_createControllerData this slot true) Hinfo.
    cbn in H0. injection H0 as ->.
    repeat split. intros Hf. discriminate Hf.
  - rewrite createControllerData_disconnected. repeat split.
Qed.

(** X15. Byte 16 of the state payload packs eight buttons, least
    significant bit first: D-pad left, down, right, up, options, R3, L3,
    share. Byte 18 is 1 or 0 for the home button, bytes 17 and 19 are zero,
    and bytes 20 to 35 hold, in this order, the two sticks, the four analog
    D-pad values and the eight analog key values, each reduced modulo 256. *)
Theorem state2buffer_buttons_and_axes (this : DSUServer) (slot : Z)
    (state : ControllerState) :
  exists payload : Buffer,
    DSU_state2buffer this slot (Some state) = inr payload
    /\ map (fun bit => Z.testbit (default 0 (Node.elem payload 16)) bit)
         [0; 1; 2; 3; 4; 5; 6; 7]
       = [DPAD_LEFT (DPAD state); DPAD_DOWN (DPAD state);
          DPAD_RIGHT (DPAD state); DPAD_UP (DPAD state);
          KEYS_OPTIONS (KEYS state); KEYS_R3 (KEYS state);
          KEYS_L3 (KEYS state); KEYS_SHARE (KEYS state)]
    /\ Node.elem payload 17 = Some 0
    /\ Node.elem payload 18 = Some (if KEYS_HOME (KEYS state) then 1 else 0)
    /\ Node.elem payload 19 = Some 0
    /\ map Node.byte2Z (Node.slice payload 20 36)
       = map (fun v => v mod 256)
           [STICK_X (LSTICK state); STICK_Y (LSTICK state);
            STICK_X (RSTICK state); STICK_Y (RSTICK state);
            ANALOG_DPAD_LEFT (ANALOG_DPAD (ANALOG state));
            ANALOG_DPAD_DOWN (ANALOG_DPAD (ANALOG state));
            ANALOG_DPAD_RIGHT (ANALOG_DPAD (ANALOG state));
            ANALOG_DPAD_UP (ANALOG_DPAD (ANALOG state));
            ANALOG_KEYS_Y (ANALOG_KEYS (ANALOG state));
            ANALOG_KEYS_B (ANALOG_KEYS (ANALOG state));
            ANALOG_KEYS_A (ANALOG_KEYS (ANALOG state));
            ANALOG_KEYS_X (ANALOG_KEYS (ANALOG state));
            ANALOG_KEYS_R1 (ANALOG_KEYS (ANALOG state));
            ANALOG_KEYS_L1 (ANALOG_KEYS (ANALOG state));
            ANALOG_KEYS_R2 (ANALOG_KEYS (ANALOG state));
            ANALOG_KEYS_L2 (ANALOG_KEYS (ANALOG state))].
Proof.
  eexists. split; [apply DSU_state2buffer_eq|].
  pose proof (length_createControllerData this slot (connected state)) as Hinfo.
  twelve_bytes (DSU_createControllerData this slot (connected state)) Hinfo.
  destruct (BITMASK2BUFFER_bits
              (DPAD_LEFT (DPAD state)) (DPAD_DOWN (DPAD state))
              (DPAD_RIGHT (DPAD state)) (DPAD_UP (DPAD state))
              (KEYS_OPTIONS (KEYS state)) (KEYS_R3 (KEYS state))
              (KEYS_L3 (KEYS state)) (KEYS_SHARE (KEYS state)))
    as (mask & -> & Hbits).
  unfold Node.elem, Node.slice.
  cbn [take drop app lookup list_lookup fmap option_fmap option_map map
       Nat.sub].
  rewrite !byte2Z_ToUint8.
  split; [exact Hbits|]. split; [reflexivity|].
  split; [destruct (KEYS_HOME (KEYS state)); reflexivity|].
  split; reflexivity.
Qed.



Lemma state2buffer_identity_witness :
  exists payload : Buffer,
    DSU_state2buffer fresh_server 2 (Some DSU_dummyState) = inr payload
    /\ Node.slice payload 1 12 = replicate 11 x00.
Proof.
  destruct (state2buffer_identity fresh_server 2 DSU_dummyState)
    as (payload & Hpay & _ & _ & _ & _ & _ & _ & Hz).
  exists payload. split; [exact Hpay|]. apply Hz. reflexivity.
Defined.

(** ** Slot summary, continued *)

(** X17. With a four-byte sender identifier the slot summary is: the slot
    index, then eleven zero bytes for a disconnected controller, or the
    constants 2, 2, 1, the sender identifier, two zero bytes, the constant 5
    and a zero byte for a connected one. The summaries of two slots differ
    in byte 0 only. *)
Theorem createControllerData_layout (this : DSUServer) (slot slot' : Z)
    (enabled : bool) :
  length (DATA_CONTROLLERID this) = 4%nat ->
  DSU_createControllerData this slot enabled
  = Node.ToUint8 slot
    :: (if enabled
        then [x02; x02; x01] ++ DATA_CONTROLLERID this ++ [x00; x00; x05; x00]
        else replicate 11 x00)
  /\ drop 1 (DSU_createControllerData this slot enabled)
     = drop 1 (DSU_createControllerData this slot' enabled).
Proof.
  intros Hid. destruct enabled.
  - rewrite !createControllerData_connected by exact Hid.
    split; reflexivity.
  - rewrite !createControllerData_disconnected. split; reflexivity.
Qed.

Lemma createControllerData_layout_witness :
  drop 1 (DSU_createControllerData slot0_server 0 true)
  = drop 1 (DSU_createControllerData slot0_server 3 true).
Proof.
  apply (createControllerData_layout slot0_server 0 3 true). reflexivity.
Defined.

(** ** Store, identifier and random states *)

Lemma store_call_ok (this : DSUServer) (c : StoreCall) :
  store_ok this ->
  store_ok (fst (store_call this c))
  /\ DATA_CONTROLLERID (fst (store_call this c)) = DATA_CONTROLLERID this.
Proof.
  intros Hok. destruct c as [index state|states]; cbn [store_call].
  - split; [apply DSU_setControllerState_store_ok, Hok|].
    unfold DSU_setControllerState.
    destruct ((index <? 0) || (index >? 3))%bool; reflexivity.
  - split; [apply DSU_setControllersState_store_ok, Hok|].
    unfold DSU_setControllersState.
    destruct (negb (length states =? 4)%nat); reflexivity.
Qed.

Lemma store_calls_ok (this : DSUServer) (cs : list StoreCall) :
  store_ok this ->
  store_ok (store_calls this cs)
  /\ DATA_CONTROLLERID (store_calls this cs) = DATA_CONTROLLERID this.
Proof.
  revert this. induction cs as [|c cs IH]; intros this Hok.
  - split; [exact Hok | reflexivity].
  - unfold store_calls. cbn [fold_left].
    destruct (store_call_ok this c Hok) as [Hok' Hid'].
    destruct (IH _ Hok') as [H1 H2]. split; [exact H1|].
    unfold store_calls in H2. rewrite H2. exact Hid'.
Qed.

Lemma length_generateID_loop (random : nat -> Q) (k todo i : nat)
    (id : Buffer) :
  length (generateID_loop random k todo i id) = length id.
Proof.
  revert k i id. induction todo as [|todo IH]; intros k i id; [reflexivity|].
  cbn [generateID_loop]. rewrite IH, length_insert. reflexivity.
Qed.

(** X18. A server object as the constructor builds it has a sender
    identifier of four bytes and a store of four slots, and keeps both
    through any sequence of calls of [DSU_setControllerState] and
    [DSU_setControllersState], whether they succeed or throw; the
    identifier never changes. *)
Theorem store_invariant (random : nat -> Q) (k : nat) (cs : list StoreCall) :
  store_ok (store_calls (constructed random k) cs)
  /\ length (DATA_CONTROLLERID (store_calls (constructed random k) cs)) = 4%nat
  /\ DATA_CONTROLLERID (store_calls (constructed random k) cs)
     = DSU_generateID random k.
Proof.
  destruct (store_calls_ok (constructed random k) cs) as [Hok Hid];
    [reflexivity|].
  split; [exact Hok|]. rewrite Hid. split; [|reflexivity].
  cbn [constructed DATA_CONTROLLERID]. unfold DSU_generateID.
  rewrite length_generateID_loop. reflexivity.
Qed.

Lemma genrandomNumber_range (random : nat -> Q) (k : nat) :
  (0 <= random k < 1)%Q -> 0 <= genrandomNumber random k <= 255.
Proof.
  intros [H0 H1]. unfold genrandomNumber.
  pose proof (Qfloor_le (random k * 256)) as Hle.
  pose proof (Qlt_floor (random k * 256)) as Hlt.
  assert (0 <= random k * 256)%Q as Hlo
      by (apply Qmult_le_0_compat; [exact H0 | discriminate]).
  assert (random k * 256 < 256)%Q as Hhi.
  { apply (Qlt_le_trans _ (1 * 256)); [|discriminate].
    apply Qmult_lt_compat_r; [reflexivity | exact H1]. }
  assert (inject_Z 0 < inject_Z (Qfloor (random k * 256) + 1))%Q as Ha
      by (eapply Qle_lt_trans; [exact Hlo | exact Hlt]).
  assert (inject_Z (Qfloor (random k * 256)) < inject_Z 256)%Q as Hb
      by (eapply Qle_lt_trans; [exact Hle | exact Hhi]).
  rewrite <- Zlt_Qlt in Ha, Hb. lia.
Qed.

(** X19. [DSU_generateID] returns four bytes, the byte at index [i] being
    the integer part of 256 times the draw of index [i]. *)
Theorem generateID_bytes (random : nat -> Q) (k : nat) :
  (forall i : nat, (0 <= random i < 1)%Q) ->
  length (DSU_generateID random k) = 4%nat
  /\ map Node.byte2Z (DSU_generateID random k)
     = [genrandomNumber random k; genrandomNumber random (S k);
        genrandomNumber random (S (S k));
        genrandomNumber random (S (S (S k)))].
Proof.
  intros Hr. split.
  - unfold DSU_generateID. rewrite length_generateID_loop. reflexivity.
  - change (DSU_generateID random k)
      with (map Node.ToUint8
              [genrandomNumber random k; genrandomNumber random (S k);
               genrandomNumber random (S (S k));
               genrandomNumber random (S (S (S k)))]).
    cbn [map]. rewrite !byte2Z_ToUint8.
    pose proof (genrandomNumber_range random k (Hr _)).
    pose proof (genrandomNumber_range random (S k) (Hr _)).
    pose proof (genrandomNumber_range random (S (S k)) (Hr _)).
    pose proof (genrandomNumber_range random (S (S (S k))) (Hr _)).
    rewrite !Z.mod_small by lia. reflexivity.
Qed.

Lemma example_random_range (i : nat) : (0 <= example_random i < 1)%Q.
Proof.
  unfold example_random.
  pose proof (Nat.mod_upper_bound i 7 ltac:(lia)) as Hm.
  unfold Qle, Qlt. cbn. lia.
Qed.

Lemma generateID_bytes_witness :
  map Node.byte2Z (DSU_generateID example_random 1) = [36; 73; 109; 146].
Proof.
  apply (proj2 (generateID_bytes example_random 1 example_random_range)).
Defined.

Lemma state2buffer_flag_and_axes (this : DSUServer) (slot : Z)
    (state : ControllerState) :
  exists payload : Buffer,
    DSU_state2buffer this slot (Some state) = inr payload
    /\ payload !! 11%nat = Some (if connected state then x01 else x00)
    /\ map Node.byte2Z (Node.slice payload 20 36)
       = map (fun v => v mod 256)
           [STICK_X (LSTICK state); STICK_Y (LSTICK state);
            STICK_X (RSTICK state); STICK_Y (RSTICK state);
            ANALOG_DPAD_LEFT (ANALOG_DPAD (ANALOG state));
            ANALOG_DPAD_DOWN (ANALOG_DPAD (ANALOG state));
            ANALOG_DPAD_RIGHT (ANALOG_DPAD (ANALOG state));
            ANALOG_DPAD_UP (ANALOG_DPAD (ANALOG state));
            ANALOG_KEYS_Y (ANALOG_KEYS (ANALOG state));
            ANALOG_KEYS_B (ANALOG_KEYS (ANALOG state));
            ANALOG_KEYS_A (ANALOG_KEYS (ANALOG state));
            ANALOG_KEYS_X (ANALOG_KEYS (ANALOG state));
            ANALOG_KEYS_R1 (ANALOG_KEYS (ANALOG state));
            ANALOG_KEYS_L1 (ANALOG_KEYS (ANALOG state));
            ANALOG_KEYS_R2 (ANALOG_KEYS (ANALOG state));
            ANALOG_KEYS_L2 (ANALOG_KEYS (ANALOG state))].
Proof.
  eexists. split; [apply DSU_state2buffer_eq|].
  pose proof (length_createControllerData this slot (connected state)) as Hinfo.
  twelve_bytes (DSU_createControllerData this slot (connected state)) Hinfo.
  unfold BITMASK2BUFFER, Node.slice. rewrite number2buffer_1.
  cbn [take drop app lookup list_lookup map Nat.sub].
  rewrite !byte2Z_ToUint8. split; reflexivity.
Qed.

(** X20. Whatever the draws, a random state is connected, its timestamp is
    the clock reading and its sixteen stick and analog values are integers
    from 0 to 255, so that bytes 20 to 35 of its payload are these very
    values and byte 11 is 1. *)
Theorem randomState_in_range (this : DSUServer) (slot : Z)
    (random : nat -> Q) (now : Z) (k : nat) :
  (forall i : nat, (0 <= random i < 1)%Q) ->
  let state := DSU_randomState random now k in
  let axes :=
    map (fun j => genrandomNumber random (k + j))
      [9; 10; 11; 12; 13; 14; 15; 16; 17; 18; 19; 20; 21; 22; 23; 24]%nat in
  connected state = true
  /\ TIMESTAMP (MOTION state) = now
  /\ Forall (fun v => 0 <= v <= 255) axes
  /\ exists payload : Buffer,
       DSU_state2buffer this slot (Some state) = inr payload
       /\ payload !! 11%nat = Some x01
       /\ map Node.byte2Z (Node.slice payload 20 36) = axes.
Proof.
  intros Hr state axes.
  assert (Forall (fun v => 0 <= v <= 255) axes) as Hall.
  { apply Forall_map, Forall_forall. intros i _.
    apply genrandomNumber_range, Hr. }
  split; [reflexivity|]. split; [reflexivity|]. split; [exact Hall|].
  destruct (state2buffer_flag_and_axes this slot state)
    as (payload & Hpay & H11 & Haxes).
  exists payload. split; [exact Hpay|]. split; [exact H11|].
  rewrite Haxes. subst axes state. unfold DSU_randomState.
  cbn [map LSTICK RSTICK ANALOG ANALOG_DPAD ANALOG_KEYS STICK_X STICK_Y
       ANALOG_DPAD_LEFT ANALOG_DPAD_DOWN ANALOG_DPAD_RIGHT ANALOG_DPAD_UP
       ANALOG_KEYS_Y ANALOG_KEYS_B ANALOG_KEYS_A ANALOG_KEYS_X ANALOG_KEYS_R1
       ANALOG_KEYS_L1 ANALOG_KEYS_R2 ANALOG_KEYS_L2].
  rewrite !Z.mod_small
    by (match goal with
        | |- 0 <= genrandomNumber ?r ?i < _ =>
            pose proof (genrandomNumber_range r i (Hr i)); lia
        end).
  reflexivity.
Qed.

Lemma randomState_in_range_witness :
  Forall (fun v => 0 <= v <= 255)
    (map (fun j => genrandomNumber example_random (0 + j))
       [9; 10; 11; 12; 13; 14; 15; 16; 17; 18; 19; 20; 21; 22; 23; 24]%nat).
Proof.
  apply (randomState_in_range fresh_server 0 example_random 0 0
           example_random_range).
Defined.

(** X21. The program of [index.ts]: after any positive number of timer
    callbacks the store holds the random state of the last callback in
    slot 0 and the three dummy states of the initializer in slots 1 to 3,
    and the sender identifier is still the one drawn by the constructor.
    Slot 0 is therefore the only slot of the store whose connection flag
    is ever set. *)
Theorem program_store (random : nat -> Q) (clock : nat -> Z) (n : nat) :
  DATA_controllerStates (program random clock (S n))
  = [DSU_randomState random (clock n) (4 + 31 * n);
     DSU_dummyState; DSU_dummyState; DSU_dummyState]
  /\ DATA_CONTROLLERID (program random clock (S n)) = DSU_generateID random 0
  /\ map connected (DATA_controllerStates (program random clock (S n)))
     = [true; false; false; false].
Proof.
  assert (forall m,
             DATA_CONTROLLERID (program random clock m)
             = DSU_generateID random 0
             /\ exists s0,
                 DATA_controllerStates (program random clock m)
                 = [s0; DSU_dummyState; DSU_dummyState; DSU_dummyState])
    as Hinv.
  { induction m as [|m [Hid (s0 & Hst)]].
    - split; [reflexivity|]. eexists. reflexivity.
    - cbn [program]. unfold timer_tick, DSU_setControllerState.
      cbn [Z.ltb Z.gtb Z.compare orb fst DATA_CONTROLLERID
           DATA_controllerStates Z.to_nat].
      rewrite Hid, Hst. split; [reflexivity|]. eexists. reflexivity. }
  destruct (Hinv n) as [Hid (s0 & Hst)].
  cbn [program]. unfold timer_tick, DSU_setControllerState.
  cbn [Z.ltb Z.gtb Z.compare orb fst DATA_CONTROLLERID
       DATA_controllerStates Z.to_nat].
  rewrite Hid, Hst. repeat split.
Qed.
